(** * Web-discovery crawlers of the bibliography pipeline

    Shallow embedding of [src/bib/download_figures.py] (figure crawl) and
    [src/bib/download_fulltext.py] (full-text crawl).

    The HTTP client ([requests.get]), the HTML parser ([BeautifulSoup]) and
    [requests.compat.urljoin] are external libraries; they are gathered in
    the record [Web], which a concrete run instantiates.  Everything written
    in the two Python files is translated as it is written: the fetcher,
    the image and link extractors, the extension inference, the frontier
    loops and the two [main] functions. *)

From Stdlib Require Import ZArith Ascii.
From stdpp Require Import base list gmap sets strings pretty.

Local Open Scope Z_scope.

(** ** Python string helpers *)

(** [sub in s] *)
Fixpoint contains (sub s : string) : bool :=
  String.prefix sub s ||
  match s with
  | EmptyString => false
  | String _ s' => contains sub s'
  end.

Definition lower_ascii (c : Ascii.ascii) : Ascii.ascii :=
  let n := Ascii.nat_of_ascii c in
  if (65 <=? n)%nat && (n <=? 90)%nat then Ascii.ascii_of_nat (n + 32) else c.

(** [s.lower()] *)
Fixpoint lower (s : string) : string :=
  match s with
  | EmptyString => EmptyString
  | String c s' => String (lower_ascii c) (lower s')
  end.

(** Python truthiness of an optional string: [None] and [""] are falsy. *)
Definition truthy (o : option string) : bool :=
  match o with
  | Some s => negb (String.eqb s "")
  | None => false
  end.

(** [a or b] on optional strings. *)
Definition or_str (a b : option string) : option string :=
  if truthy a then a else b.

(** ** [urllib.parse.urlparse(u).netloc]

    The part of [urlsplit] that determines the network location: a scheme
    made of scheme characters and starting with a letter is split off at the
    first [':'], and when the rest starts with ["//"] the netloc runs up to
    the first of ['/'], ['?'], ['#'].  Left out: [urlsplit] also strips
    leading C0 control and space characters, deletes tab, CR and LF
    anywhere, and raises [ValueError] on an unbalanced ['['] or [']'] in the
    netloc; the URLs classified here are [requests]' final URLs, which
    contain none of these. *)

Definition is_alpha (c : Ascii.ascii) : bool :=
  let n := Ascii.nat_of_ascii c in
  ((65 <=? n)%nat && (n <=? 90)%nat) || ((97 <=? n)%nat && (n <=? 122)%nat).

Definition is_digit (c : Ascii.ascii) : bool :=
  let n := Ascii.nat_of_ascii c in (48 <=? n)%nat && (n <=? 57)%nat.

Definition scheme_char (c : Ascii.ascii) : bool :=
  is_alpha c || is_digit c || Ascii.eqb c "+"%char || Ascii.eqb c "-"%char
  || Ascii.eqb c "."%char.

Fixpoint all_chars (p : Ascii.ascii -> bool) (s : string) : bool :=
  match s with
  | EmptyString => true
  | String c s' => p c && all_chars p s'
  end.

(** [url.find(':')], returning the text before and after the colon. *)
Fixpoint split_colon (s : string) : option (string * string) :=
  match s with
  | EmptyString => None
  | String c s' =>
      if Ascii.eqb c ":"%char then Some (EmptyString, s')
      else match split_colon s' with
           | Some (pre, post) => Some (String c pre, post)
           | None => None
           end
  end.

Fixpoint take_netloc (s : string) : string :=
  match s with
  | EmptyString => EmptyString
  | String c s' =>
      if Ascii.eqb c "/"%char || Ascii.eqb c "?"%char || Ascii.eqb c "#"%char
      then EmptyString else String c (take_netloc s')
  end.

Definition strip_scheme (url : string) : string :=
  match split_colon url with
  | Some (String c0 _ as pre, post) =>
      if is_alpha c0 && all_chars scheme_char pre then post else url
  | _ => url
  end.

Definition urlparse_netloc (url : string) : string :=
  let rest := strip_scheme url in
  if String.prefix "//" rest then take_netloc (String.substring 2 (String.length rest) rest)
  else EmptyString.

(** ** External collaborators *)

(** A response of [requests.get]: status, the [Content-Type] header if
    present, the final URL after redirects, [resp.text] and [resp.content]. *)
Record Response := mkResponse {
  status_code : Z;
  content_type : option string;
  resp_url : string;
  resp_text : string;
  resp_content : string
}.

(** [requests.get] either raises or returns a response. *)
Inductive GetResult :=
| Raised (reason : string)
| Returned (r : Response).

(** An [<img>] tag and the attributes the extractors read. *)
Record Img := mkImg {
  img_data_src : option string;
  img_src : option string;
  img_alt : option string;
  img_title : option string
}.

(** The queries the code makes on a parsed page ([BeautifulSoup(html)]):
    - [soup_figures]: for each [<figure>], its [<img>] descendants;
    - [soup_select sel]: for each element matching the CSS selector, its
      [<img>] descendants;
    - [soup_imgs]: [soup.find_all("img")];
    - [soup_a_hrefs]: [a["href"]] for [a] in [soup.find_all("a", href=True)];
    - [soup_docsum_title]: [soup.select_one("a.docsum-title")], [None] when
      absent or falsy (a tag without contents), otherwise its [href]
      attribute if any;
    - [soup_main_content], [soup_article]: the [get_text] of
      [soup.find(id="main-content")] and [soup.find("article")], [None] when
      the element is absent or falsy;
    - [soup_text]: [soup.get_text(separator="\n", strip=True)]. *)
Record Soup := mkSoup {
  soup_figures : list (list Img);
  soup_select : string -> list (list Img);
  soup_imgs : list Img;
  soup_a_hrefs : list string;
  soup_docsum_title : option (option string);
  soup_main_content : option string;
  soup_article : option string;
  soup_text : string
}.

Record Web := mkWeb {
  http_get : string -> GetResult;
  parse_html : string -> Soup;
  urljoin : string -> string -> string
}.

(** ** [fetch_html] (both files)

    Returns [(final_url, text, content_type)] as three optional strings. *)
Definition fetch_html (w : Web) (url : string)
    : option string * option string * option string :=
  match http_get w url with
  | Raised _ => (None, None, None)
  | Returned resp =>
      let ctype := lower (default "" (content_type resp)) in
      if negb (Z.eqb (status_code resp) 200) then (None, None, None)
      else if negb (contains "html" ctype) then (None, None, None)
      else (Some (resp_url resp), Some (resp_text resp), Some ctype)
  end.

(** [fetch_html] of [download_fulltext.py]: the two checks are one [or]. *)
Definition fetch_html_fulltext (w : Web) (url : string)
    : option string * option string * option string :=
  match http_get w url with
  | Raised _ => (None, None, None)
  | Returned resp =>
      let ctype := lower (default "" (content_type resp)) in
      if negb (Z.eqb (status_code resp) 200) || negb (contains "html" ctype)
      then (None, None, None)
      else (Some (resp_url resp), Some (resp_text resp), Some ctype)
  end.

(** ** Order-preserving deduplication (the [seen] set idiom and
    [list(dict.fromkeys(...))]) *)
Fixpoint dedupe_go (seen : gset string) (l : list string) : list string :=
  match l with
  | [] => []
  | u :: us =>
      if decide (u ∈ seen) then dedupe_go seen us
      else u :: dedupe_go ({[u]} ∪ seen) us
  end.

Definition dedupe (l : list string) : list string := dedupe_go ∅ l.

(** ** [extract_img_urls_from_html] *)

(** [img.get("data-src") or img.get("src")], kept when truthy. *)
Definition img_source (img : Img) : option string :=
  let src := or_str (img_data_src img) (img_src img) in
  if truthy src then src else None.

Definition srcs_of (w : Web) (base_url : string) (imgs : list Img) : list string :=
  omap (fun img => urljoin w base_url <$> img_source img) imgs.

Definition figure_selectors : list string :=
  ["div.figures"; "div.figure"; "div.fig"; "li.fig"; "li.figure"].

(** [any(tok in alt or tok in title for tok in ("fig", "figure"))] *)
Definition mentions_fig (img : Img) : bool :=
  let alt := lower (default "" (img_alt img)) in
  let title := lower (default "" (img_title img)) in
  existsb (fun tok => contains tok alt || contains tok title) ["fig"; "figure"].

Definition extract_img_urls_from_html (w : Web) (base_url html : string) : list string :=
  let soup := parse_html w html in
  let img_urls :=
    mjoin (map (srcs_of w base_url) (soup_figures soup))
    ++ mjoin (map (fun sel => mjoin (map (srcs_of w base_url) (soup_select soup sel)))
                  figure_selectors)
    ++ srcs_of w base_url (filter (fun img => mentions_fig img = true) (soup_imgs soup)) in
  dedupe img_urls.

(** ** [find_pmc_links_in_html] (and [find_pmc_links_in_pubmed]) *)
Definition find_pmc_links_in_html (w : Web) (base_url html : string) : list string :=
  let soup := parse_html w html in
  dedupe (map (urljoin w base_url)
              (filter (fun href => contains "pmc.ncbi.nlm.nih.gov" href = true)
                      (soup_a_hrefs soup))).

(** ** Extension inference and image download loop *)
Definition known_exts : list string :=
  [".png"; ".jpg"; ".jpeg"; ".tif"; ".tiff"; ".gif"].

Definition infer_ext (img_url : string) : string :=
  let lwr := lower img_url in
  match List.find (fun cand => contains cand lwr) known_exts with
  | Some cand => cand
  | None => ".png"
  end.

(** ** Records written by the crawls *)

(** [{"url": img_url, "file": fname.name}] *)
Record Download := mkDownload { dl_url : string; dl_file : string }.

(** Figure-crawl trace entry [{"url", "final_url", "status"}]. *)
Record FigTrace := mkFigTrace {
  ft_url : string; ft_final_url : option string; ft_status : string }.

(** Full-text trace entry [{"url", "final_url", "ctype"}]. *)
Record TextTrace := mkTextTrace {
  tt_url : string; tt_final_url : option string; tt_ctype : string }.

(** Contents of a written file; the two metadata variants are the JSON
    objects dumped to [meta.json]. *)
Inductive FileData :=
| Bytes (b : string)
| Text (t : string)
| FigMeta (doi pmcid : option string) (figures : list Download)
    (tried_urls : list string) (trace : list FigTrace)
| TextMeta (doi pmcid : option string) (used_url : option string)
    (tried_urls : list string) (trace : list TextTrace).

(** The download loop of [try_download_from_url]: [i] is the [enumerate]
    index (starting at 1); returns the downloads and the files written
    ([figs_dir / f"figure_{i}{ext}"]), in order. *)
Fixpoint download_images (w : Web) (i : nat) (img_urls : list string)
    : list Download * list (string * FileData) :=
  match img_urls with
  | [] => ([], [])
  | img_url :: rest =>
      let '(dls, writes) := download_images w (S i) rest in
      match http_get w img_url with
      | Raised _ => (dls, writes)
      | Returned r =>
          if negb (Z.eqb (status_code r) 200) || String.eqb (resp_content r) ""
          then (dls, writes)
          else
            let fname := "figure_" +:+ pretty i +:+ infer_ext img_url in
            (mkDownload img_url fname :: dls,
             ("figs/" +:+ fname, Bytes (resp_content r)) :: writes)
      end
  end.

(** [final_url or url] *)
Definition py_or (a : option string) (b : string) : string :=
  if truthy a then default b a else b.

(** [for c in cands: if c not in visited and c not in url_queue:
    url_queue.append(c)] *)
Fixpoint enqueue_new (vis : gset string) (q : list string) (cands : list string)
    : list string :=
  match cands with
  | [] => q
  | c :: cs =>
      if bool_decide (c ∉ vis) && bool_decide (c ∉ q) then enqueue_new vis (q ++ [c]) cs
      else enqueue_new vis q cs
  end.

(** ** Figure crawl *)

(** The mutable locals of [main] in [download_figures.py], with the file
    writes made so far. *)
Record FigState := mkFigState {
  url_queue : list string;
  idx : nat;
  visited : gset string;
  tried_meta : list FigTrace;
  downloaded_all : list Download;
  fig_writes : list (string * FileData)
}.

(** [try_download_from_url]: returns the new downloads; [visited],
    [url_queue], [tried_meta] and the file system are updated in place. *)
Definition try_download_from_url (w : Web) (url : string) (s : FigState)
    : list Download * FigState :=
  let vis := {[url]} ∪ visited s in
  let '(final_url, html, _) := fetch_html w url in
  match html with
  | Some h =>
      if truthy html then
        let trace := tried_meta s ++ [mkFigTrace url final_url "html"] in
        let host := lower (urlparse_netloc (py_or final_url url)) in
        let base := default "" final_url in
        let q :=
          if contains "pubmed.ncbi.nlm.nih.gov" host
          then enqueue_new vis (url_queue s) (find_pmc_links_in_html w base h)
          else url_queue s in
        let img_urls := extract_img_urls_from_html w base h in
        let '(downloaded, writes) := download_images w 1 img_urls in
        (downloaded,
         mkFigState q (idx s) vis trace (downloaded_all s) (fig_writes s ++ writes))
      else
        ([], mkFigState (url_queue s) (idx s) vis
               (tried_meta s ++ [mkFigTrace url final_url "no_html"])
               (downloaded_all s) (fig_writes s))
  | None =>
      ([], mkFigState (url_queue s) (idx s) vis
             (tried_meta s ++ [mkFigTrace url final_url "no_html"])
             (downloaded_all s) (fig_writes s))
  end.

(** One iteration of a [while] loop: it either goes on or leaves the loop
    (condition false, or [break]). *)
Inductive LoopStep (A : Type) :=
| Continue (s : A)
| Exit (s : A).
Arguments Continue {A} s.
Arguments Exit {A} s.

Definition is_nil {A} (l : list A) : bool :=
  match l with [] => true | _ => false end.

(** [while idx < len(url_queue) and not downloaded_all: ...] *)
Definition fig_step (w : Web) (s : FigState) : LoopStep FigState :=
  if (idx s <? length (url_queue s))%nat && is_nil (downloaded_all s) then
    match url_queue s !! idx s with
    | Some url =>
        let s1 := mkFigState (url_queue s) (S (idx s)) (visited s) (tried_meta s)
                    (downloaded_all s) (fig_writes s) in
        if decide (url ∈ visited s1) then Continue s1
        else
          let '(new, s2) := try_download_from_url w url s1 in
          Continue (mkFigState (url_queue s2) (idx s2) (visited s2) (tried_meta s2)
                      (downloaded_all s2 ++ new) (fig_writes s2))
    | None => Exit s
    end
  else Exit s.

(** The loop run for at most [fuel] iterations. *)
Fixpoint fig_loop (w : Web) (fuel : nat) (s : FigState) : FigState :=
  match fuel with
  | O => s
  | S n =>
      match fig_step w s with
      | Continue s' => fig_loop w n s'
      | Exit s' => s'
      end
  end.

(** What a run of a [main] leaves behind: the directories it creates, the
    files it writes (in order, paths relative to [outdir]) and whether it
    reports success rather than "no usable ... found". *)
Record RunOutcome := mkRun {
  made_dirs : list string;
  written : list (string * FileData);
  found : bool
}.

(** [pmcid.replace("PMC", "")] *)
Fixpoint remove_PMC (s : string) : string :=
  match s with
  | String "P" (String "M" (String "C" rest)) => remove_PMC rest
  | String c rest => String c (remove_PMC rest)
  | EmptyString => EmptyString
  end.

(** Characters for which Python's [str.isspace] holds, in ASCII. *)
Definition is_space (c : Ascii.ascii) : bool :=
  let n := Ascii.nat_of_ascii c in ((9 <=? n)%nat && (n <=? 13)%nat)
  || ((28 <=? n)%nat && (n <=? 32)%nat).

Fixpoint lstrip (s : string) : string :=
  match s with
  | String c s' => if is_space c then lstrip s' else s
  | EmptyString => EmptyString
  end.

Fixpoint rstrip (s : string) : string :=
  match s with
  | String c s' =>
      let r := rstrip s' in
      if String.eqb r "" && is_space c then EmptyString else String c r
  | EmptyString => EmptyString
  end.

(** [s.strip()] *)
Definition strip (s : string) : string := rstrip (lstrip s).

Definition pmc_url (pmcid : string) : string :=
  "https://pmc.ncbi.nlm.nih.gov/articles/PMC" +:+ strip (remove_PMC pmcid) +:+ "/".

(** The initial queue built inline in [main] of [download_figures.py]. *)
Definition fig_initial_queue (doi pmcid : option string) : list string :=
  let q1 := match pmcid with
            | Some p => if truthy pmcid then [pmc_url p] else []
            | None => []
            end in
  let q2 := match doi with
            | Some d => if truthy doi
                        then q1 ++ ["https://doi.org/" +:+ d;
                                    "https://pubmed.ncbi.nlm.nih.gov/?term=" +:+ d]
                        else q1
            | None => q1
            end in
  dedupe q2.

Definition fig_init (doi pmcid : option string) : FigState :=
  mkFigState (fig_initial_queue doi pmcid) 0 ∅ [] [] [].

(** [main] of [download_figures.py], its loop run for at most [fuel]
    iterations. *)
Definition main_figures (w : Web) (fuel : nat) (doi pmcid : option string) : RunOutcome :=
  let s := fig_loop w fuel (fig_init doi pmcid) in
  if negb (is_nil (downloaded_all s)) then
    mkRun ["figs"]
      (fig_writes s ++ [("meta.json", FigMeta doi pmcid (downloaded_all s)
                                        (url_queue s) (tried_meta s))])
      true
  else mkRun ["figs"] (fig_writes s) false.

(** ** Full-text crawl *)

(** [candidate_urls_for_entry] of [download_fulltext.py]. *)
Definition candidate_urls_for_entry (doi pmcid : option string) : list string :=
  let urls1 := match pmcid with
               | Some p => if truthy pmcid then [pmc_url p] else []
               | None => []
               end in
  let urls2 := match doi with
               | Some d => if truthy doi
                           then urls1 ++ ["https://doi.org/" +:+ d;
                                          "https://pubmed.ncbi.nlm.nih.gov/?term=" +:+ d]
                           else urls1
               | None => urls1
               end in
  dedupe urls2.

Definition find_pmc_links_in_pubmed (w : Web) (base_url html : string) : list string :=
  let soup := parse_html w html in
  dedupe (map (urljoin w base_url)
              (filter (fun href => contains "pmc.ncbi.nlm.nih.gov" href = true)
                      (soup_a_hrefs soup))).

Definition extract_main_text_from_html (w : Web) (html : string) : string :=
  let soup := parse_html w html in
  match soup_main_content soup with
  | Some t => t
  | None => match soup_article soup with
            | Some t => t
            | None => soup_text soup
            end
  end.

(** The mutable locals of [main] in [download_fulltext.py]. *)
Record TextState := mkTextState {
  t_queue : list string;
  t_idx : nat;
  t_visited : gset string;
  tried : list TextTrace;
  full_html : option string;
  final_used_url : option string
}.

(** [while idx < len(url_queue) and not full_html: ...] *)
Definition text_step (w : Web) (s : TextState) : LoopStep TextState :=
  if (t_idx s <? length (t_queue s))%nat && negb (truthy (full_html s)) then
    match t_queue s !! t_idx s with
    | Some url =>
        let q := t_queue s in
        let i := S (t_idx s) in
        if decide (url ∈ t_visited s) then
          Continue (mkTextState q i (t_visited s) (tried s) (full_html s) (final_used_url s))
        else
          let vis := {[url]} ∪ t_visited s in
          let '(final_url, html, ctype) := fetch_html_fulltext w url in
          let tr := tried s ++ [mkTextTrace url final_url (py_or ctype "unknown")] in
          let with_queue q' :=
            mkTextState q' i vis tr (full_html s) (final_used_url s) in
          match html with
          | Some h =>
              if negb (truthy html) then Continue (with_queue q) else
              let fu := py_or final_url url in
              let host := lower (urlparse_netloc fu) in
              let base := default "" final_url in
              if contains "pubmed.ncbi.nlm.nih.gov" host && contains "/?term=" fu then
                let q' :=
                  match soup_docsum_title (parse_html w h) with
                  | Some href =>
                      if truthy href then
                        let art_url := urljoin w base (default "" href) in
                        if bool_decide (art_url ∉ vis) && bool_decide (art_url ∉ q)
                        then q ++ [art_url] else q
                      else q
                  | None => q
                  end in
                Continue (with_queue q')
              else if contains "pubmed.ncbi.nlm.nih.gov" host then
                Continue (with_queue (enqueue_new vis q (find_pmc_links_in_pubmed w base h)))
              else if contains "pmc.ncbi.nlm.nih.gov" host
                      || contains "learnmem.cshlp.org" host then
                Exit (mkTextState q i vis tr (Some h) final_url)
              else Continue (with_queue q)
          | None => Continue (with_queue q)
          end
    | None => Exit s
    end
  else Exit s.

Fixpoint text_loop (w : Web) (fuel : nat) (s : TextState) : TextState :=
  match fuel with
  | O => s
  | S n =>
      match text_step w s with
      | Continue s' => text_loop w n s'
      | Exit s' => s'
      end
  end.

Definition text_init (doi pmcid : option string) : TextState :=
  mkTextState (candidate_urls_for_entry doi pmcid) 0 ∅ [] None None.

(** [main] of [download_fulltext.py], its loop run for at most [fuel]
    iterations. *)
Definition main_fulltext (w : Web) (fuel : nat) (doi pmcid : option string) : RunOutcome :=
  let s := text_loop w fuel (text_init doi pmcid) in
  match full_html s with
  | Some h =>
      if truthy (full_html s) then
        mkRun ["."]
          [("full.html", Text h);
           ("full.txt", Text (extract_main_text_from_html w h));
           ("meta.json", TextMeta doi pmcid (final_used_url s) (t_queue s) (tried s))]
          true
      else mkRun ["."] [] false
  | None => mkRun ["."] [] false
  end.

(** ** A small concrete web used to run the crawls *)
Module Sample.

Definition empty_soup : Soup :=
  mkSoup [] (fun _ => []) [] [] None None None "".

Definition ok (ctype url body : string) : GetResult :=
  Returned (mkResponse 200 (Some ctype) url body body).

Definition not_found (url : string) : GetResult :=
  Returned (mkResponse 404 (Some "text/html") url "" "").

Definition img (src : string) : Img := mkImg None (Some src) None None.

(** [urljoin] for the references used here: absolute URLs are kept,
    root-relative ones go to the base's host. *)
Definition join (base ref : string) : string :=
  if String.prefix "https://" ref then ref
  else "https://" +:+ urlparse_netloc base +:+ ref.

Definition A := "https://pubmed.ncbi.nlm.nih.gov/111/".
Definition B := "https://doi.org/10.1/b".
Definition C := "https://doi.org/10.1/c".
Definition D := "https://pmc.ncbi.nlm.nih.gov/articles/PMC9/".

(** [A] is a PubMed article page linking to the PMC page [D] and showing no
    figure; [B] answers 404; [C] is a PDF; [D] has two figures. *)
Definition get1 (u : string) : GetResult :=
  if String.eqb u A then ok "text/html; charset=utf-8" A "pageA"
  else if String.eqb u B then not_found B
  else if String.eqb u C then ok "application/pdf" C "%PDF"
  else if String.eqb u D then ok "text/html" D "pageD"
  else if String.eqb u "https://pmc.ncbi.nlm.nih.gov/f1.png" then ok "image/png" u "PNG1"
  else if String.eqb u "https://pmc.ncbi.nlm.nih.gov/f2.jpg" then ok "image/jpeg" u "JPG2"
  else Raised "connection refused".

Definition parse1 (html : string) : Soup :=
  if String.eqb html "pageA" then
    mkSoup [] (fun _ => []) [] ["/search"; D] None None None "A"
  else if String.eqb html "pageD" then
    mkSoup [[img "/f1.png"; img "/f2.jpg"]] (fun _ => [])
           [img "/f1.png"; img "/f2.jpg"] [] None None None "D"
  else empty_soup.

Definition web1 : Web := mkWeb get1 parse1 join.

Definition start1 : FigState := mkFigState [A; B; C] 0 ∅ [] [] [].

End Sample.

(** ** Auxiliary definitions for the properties *)

(** An image download that succeeds: [requests.get] returns status 200
    with a non-empty body. *)
Definition image_ok (w : Web) (u : string) : Prop :=
  match http_get w u with
  | Returned r => status_code r = 200 ∧ resp_content r ≠ ""
  | Raised _ => False
  end.

(** The frontier only grows at its end, the trace lists the first
    occurrences among the entries consumed so far, in frontier order, and
    the visited set holds exactly the consumed entries. *)
Definition fig_inv (q0 : list string) (s : FigState) : Prop :=
  (∃ ext, url_queue s = q0 ++ ext) ∧
  (idx s ≤ length (url_queue s))%nat ∧
  map ft_url (tried_meta s) = dedupe (take (idx s) (url_queue s)) ∧
  visited s = list_to_set (take (idx s) (url_queue s)).

Definition step_state {A} (r : LoopStep A) : A :=
  match r with Continue s => s | Exit s => s end.

Definition text_inv (q0 : list string) (s : TextState) : Prop :=
  (∃ ext, t_queue s = q0 ++ ext) ∧
  (t_idx s ≤ length (t_queue s))%nat ∧
  map tt_url (tried s) = dedupe (take (t_idx s) (t_queue s)) ∧
  t_visited s = list_to_set (take (t_idx s) (t_queue s)).

(** The host the classifiers look at: [urlparse(final_url or url).netloc.lower()]. *)
Definition host_of (final_url : option string) (url : string) : string :=
  lower (urlparse_netloc (py_or final_url url)).

Module Sample2.
Import Sample.

Definition doi := "10.1/x".
Definition DOI_URL := "https://doi.org/10.1/x".
Definition SEARCH := "https://pubmed.ncbi.nlm.nih.gov/?term=10.1/x".
Definition ARTICLE := "https://pubmed.ncbi.nlm.nih.gov/222/".
Definition LOGO := "https://pubmed.ncbi.nlm.nih.gov/fig-logo.png".
Definition BLOG := "https://blog.example.org/post".
Definition BROKEN := "https://pmc.ncbi.nlm.nih.gov/articles/PMC7/".

(** The DOI resolver is unreachable; the PubMed search page lists one
    result, [/222/], and shows one image inside a [<figure>]; [BLOG] is an
    HTML page on an unrelated host; [BROKEN] is a PMC page whose only
    figure image cannot be fetched. *)
Definition get2 (u : string) : GetResult :=
  if String.eqb u SEARCH then ok "text/html" SEARCH "pageS"
  else if String.eqb u ARTICLE then ok "text/html" ARTICLE "pageArt"
  else if String.eqb u LOGO then ok "image/png" LOGO "PNG"
  else if String.eqb u BLOG then ok "text/html" BLOG "pageBlog"
  else if String.eqb u BROKEN then ok "text/html" BROKEN "pageBroken"
  else Raised "name resolution failed".

Definition parse2 (html : string) : Soup :=
  if String.eqb html "pageS" then
    mkSoup [[img "/fig-logo.png"]] (fun _ => []) [img "/fig-logo.png"] ["/222/"]
           (Some (Some "/222/")) None None "S"
  else if String.eqb html "pageBroken" then
    mkSoup [[img "/gone.png"]] (fun _ => []) [img "/gone.png"] [] None None None "B"
  else empty_soup.

Definition web2 : Web := mkWeb get2 parse2 join.

End Sample2.

(** What the download loop does with the candidate numbered [n]. *)
Definition image_outcome (w : Web) (n : nat) (u : string)
    : option (Download * (string * FileData)) :=
  match http_get w u with
  | Returned r =>
      if Z.eqb (status_code r) 200 && negb (String.eqb (resp_content r) "") then
        let fname := "figure_" +:+ pretty n +:+ infer_ext u in
        Some (mkDownload u fname, ("figs/" +:+ fname, Bytes (resp_content r)))
      else None
  | Raised _ => None
  end.

(** [c in "/?#"]: the characters that end a network location. *)
Definition netloc_delim (c : Ascii.ascii) : bool :=
  Ascii.eqb c "/"%char || Ascii.eqb c "?"%char || Ascii.eqb c "#"%char.

(** Printable ASCII other than the delimiters and the brackets: characters
    that [urlsplit] neither deletes nor validates in a netloc. *)
Definition host_char (c : Ascii.ascii) : bool :=
  let n := Ascii.nat_of_ascii c in
  (33 <=? n)%nat && (n <=? 126)%nat && negb (netloc_delim c)
  && negb (Ascii.eqb c "["%char) && negb (Ascii.eqb c "]"%char).

(** The file [wr] written for download [d]: [figs/<file>], holding the body
    of a status-200, non-empty answer to the image URL. *)
Definition saved_as (w : Web) (d : Download) (wr : string * FileData) : Prop :=
  wr.1 = "figs/" +:+ dl_file d ∧
  ∃ r, http_get w (dl_url d) = Returned r ∧ status_code r = 200 ∧
       resp_content r ≠ "" ∧ wr.2 = Bytes (resp_content r).

(** The figure files written so far are those of the downloads, one each,
    under distinct names. *)
Definition fig_files_ok (w : Web) (s : FigState) : Prop :=
  Forall2 (saved_as w) (downloaded_all s) (fig_writes s) ∧ NoDup (map dl_file (downloaded_all s)).

(** A full-text result: the non-empty HTML page of the last attempted URL,
    on a host that is not PubMed but PMC or learnmem, with its final URL. *)
Definition text_result (w : Web) (s : TextState) : Prop :=
  ∃ url fu h ct tr0,
    fetch_html_fulltext w url = (Some fu, Some h, Some ct) ∧ h ≠ "" ∧
    contains "pubmed.ncbi.nlm.nih.gov" (host_of (Some fu) url) = false ∧
    (contains "pmc.ncbi.nlm.nih.gov" (host_of (Some fu) url)
     || contains "learnmem.cshlp.org" (host_of (Some fu) url)) = true ∧
    tried s = tr0 ++ [mkTextTrace url (Some fu) ct] ∧
    full_html s = Some h ∧ final_used_url s = Some fu.

(** * Properties *)

(** ** Deduplication *)

Lemma dedupe_go_snoc (seen : gset string) (l : list string) (x : string) :
  dedupe_go seen (l ++ [x]) =
  dedupe_go seen l ++ (if bool_decide (x ∈ seen ∨ x ∈ l) then [] else [x]).
Proof.
  revert seen. induction l as [|u us IH]; intros seen; simpl.
  - case_decide; case_bool_decide; set_solver.
  - destruct (decide (u ∈ seen)) as [Hu|Hu].
    + rewrite IH. f_equal.
      do 2 case_bool_decide; first [done | exfalso; set_solver].
    + rewrite IH. simpl. do 2 f_equal.
      do 2 case_bool_decide; first [done | exfalso; set_solver].
Qed.

Lemma dedupe_snoc (l : list string) (x : string) :
  dedupe (l ++ [x]) = dedupe l ++ (if bool_decide (x ∈ l) then [] else [x]).
Proof.
  unfold dedupe. rewrite dedupe_go_snoc. f_equal.
  do 2 case_bool_decide; first [done | exfalso; set_solver].
Qed.

Lemma dedupe_go_NoDup (seen : gset string) (l : list string) :
  NoDup (dedupe_go seen l) ∧ (∀ x, x ∈ dedupe_go seen l → (x ∉ seen) ∧ x ∈ l).
Proof.
  revert seen. induction l as [|u us IH]; intros seen; simpl.
  - split; [constructor | set_solver].
  - destruct (decide (u ∈ seen)) as [Hu|Hu].
    + destruct (IH seen) as [HN Hin]. split; [done|]. set_solver.
    + destruct (IH ({[u]} ∪ seen)) as [HN Hin]. split.
      * constructor; [|done]. intros Hx. apply Hin in Hx. set_solver.
      * intros x Hx. apply elem_of_cons in Hx as [->|Hx]; [set_solver|].
        apply Hin in Hx. set_solver.
Qed.

Lemma dedupe_NoDup (l : list string) : NoDup (dedupe l).
Proof. apply dedupe_go_NoDup. Qed.

Lemma dedupe_elem (l : list string) (x : string) : x ∈ dedupe l ↔ x ∈ l.
Proof.
  induction l as [|u us IH] using rev_ind; [done|].
  rewrite dedupe_snoc. case_bool_decide; set_solver.
Qed.

(** ** Growth of the frontier *)

Lemma enqueue_new_app (vis : gset string) (q cands : list string) :
  ∃ ext, enqueue_new vis q cands = q ++ ext.
Proof.
  revert q. induction cands as [|c cs IH]; intros q; simpl.
  - exists []. by rewrite app_nil_r.
  - destruct (bool_decide _ && bool_decide _).
    + destruct (IH (q ++ [c])) as [ext ->]. exists (c :: ext).
      by rewrite <- app_assoc.
    + apply IH.
Qed.

Lemma take_snoc_ext (q ext : list string) (i : nat) (x : string) :
  q !! i = Some x → take (S i) (q ++ ext) = take i q ++ [x].
Proof.
  intros Hx. rewrite (take_S_r _ _ x); [|by apply lookup_app_l_Some].
  rewrite take_app_le; [done|]. apply lookup_lt_Some in Hx. lia.
Qed.

(** ** One attempt of the figure crawl *)

Lemma download_images_ok (w : Web) (i : nat) (urls : list string) :
  Forall (λ d, image_ok w (dl_url d)) (download_images w i urls).1.
Proof.
  revert i. induction urls as [|u us IH]; intros i; simpl; [constructor|].
  specialize (IH (S i)). destruct (download_images w (S i) us) as [dls ws].
  unfold image_ok. destruct (http_get w u) as [e|r] eqn:Hg; [done|].
  destruct (negb (Z.eqb (status_code r) 200) || String.eqb (resp_content r) "")
    eqn:Hb; [done|].
  simpl in *. constructor; [|done]. simpl. rewrite Hg.
  apply orb_false_iff in Hb as [H1 H2]. apply negb_false_iff, Z.eqb_eq in H1.
  split; [done|]. intros He. rewrite He in H2. done.
Qed.

Lemma try_download_shape (w : Web) (url : string) (s : FigState) :
  let '(new, s2) := try_download_from_url w url s in
  (∃ ext, url_queue s2 = url_queue s ++ ext) ∧ idx s2 = idx s ∧
  map ft_url (tried_meta s2) = map ft_url (tried_meta s) ++ [url] ∧
  visited s2 = {[url]} ∪ visited s ∧ downloaded_all s2 = downloaded_all s ∧
  Forall (λ d, image_ok w (dl_url d)) new.
Proof.
  unfold try_download_from_url.
  destruct (fetch_html w url) as [[fu html] ct].
  assert (Hnil : ∃ ext, url_queue s = url_queue s ++ ext)
    by (exists []; by rewrite app_nil_r).
  destruct html as [h|]; [destruct (truthy (Some h))|].
  - pose proof (download_images_ok w 1 (extract_img_urls_from_html w (default "" fu) h)) as Hok.
    destruct (download_images w 1 _) as [dls ws]. simpl in *.
    rewrite map_app. repeat split; auto.
    destruct (contains _ _); [apply enqueue_new_app|done].
  - simpl. rewrite map_app. repeat split; auto.
  - simpl. rewrite map_app. repeat split; auto.
Qed.

(** ** The figure-crawl loop invariant *)

Lemma fig_inv_init (q0 : list string) : fig_inv q0 (mkFigState q0 0 ∅ [] [] []).
Proof.
  repeat split; simpl; auto with lia. exists []. by rewrite app_nil_r.
Qed.

Lemma fig_step_inv (w : Web) (q0 : list string) (s : FigState) :
  fig_inv q0 s → fig_inv q0 (step_state (fig_step w s)).
Proof.
  intros (Hq & Hle & Htr & Hvis). unfold fig_step.
  destruct (_ && _); [|done].
  destruct (url_queue s !! idx s) as [url|] eqn:Hl; [|done].
  pose proof (lookup_lt_Some _ _ _ Hl) as Hlt.
  cbn [visited]. destruct (decide (url ∈ visited s)) as [Hin|Hin].
  - unfold fig_inv; simpl. rewrite (take_S_r _ _ url) by done.
    assert (url ∈ take (idx s) (url_queue s)).
    { rewrite Hvis in Hin. by apply elem_of_list_to_set in Hin. }
    repeat split; simpl; auto with lia.
    + rewrite dedupe_snoc, bool_decide_eq_true_2 by done.
      by rewrite app_nil_r.
    + rewrite list_to_set_app_L. set_solver.
  - pose proof (try_download_shape w url
      (mkFigState (url_queue s) (S (idx s)) (visited s) (tried_meta s)
         (downloaded_all s) (fig_writes s))) as Hsh.
    destruct (try_download_from_url w url _) as [new s2].
    simpl in Hsh. destruct Hsh as ([ext Hext] & Hidx & Htr2 & Hvis2 & _).
    assert (url ∉ take (idx s) (url_queue s)).
    { intros Hx. apply Hin. rewrite Hvis. by apply elem_of_list_to_set. }
    unfold fig_inv; simpl. rewrite Hext, Hidx, (take_snoc_ext _ _ _ url) by done.
    repeat split.
    + destruct Hq as [e0 ->]. exists (e0 ++ ext). by rewrite app_assoc.
    + rewrite length_app. lia.
    + rewrite Htr2, Htr, dedupe_snoc, bool_decide_eq_false_2 by done. done.
    + rewrite Hvis2, list_to_set_app_L, Hvis. set_solver.
Qed.

Lemma fig_loop_inv (w : Web) (q0 : list string) (fuel : nat) (s : FigState) :
  fig_inv q0 s → fig_inv q0 (fig_loop w fuel s).
Proof.
  revert s. induction fuel as [|n IH]; intros s Hs; simpl; [done|].
  pose proof (fig_step_inv w q0 s Hs) as Hs'.
  destruct (fig_step w s); simpl in *; [apply IH|]; done.
Qed.

(** ** The full-text loop invariant *)

Lemma text_inv_init (q0 : list string) : text_inv q0 (mkTextState q0 0 ∅ [] None None).
Proof.
  repeat split; simpl; auto with lia. exists []. by rewrite app_nil_r.
Qed.

(** After an attempt of entry [url] at position [t_idx s], whatever the
    classifier appended to the frontier. *)
Lemma text_inv_attempt (q0 : list string) (s : TextState) (url : string)
    (entry : TextTrace) (q' : list string) (fh fu : option string) :
  text_inv q0 s → t_queue s !! t_idx s = Some url → url ∉ t_visited s →
  tt_url entry = url → (∃ ext, q' = t_queue s ++ ext) →
  text_inv q0 (mkTextState q' (S (t_idx s)) ({[url]} ∪ t_visited s)
                 (tried s ++ [entry]) fh fu).
Proof.
  intros (Hq & Hle & Htr & Hvis) Hl Hin He [ext ->].
  pose proof (lookup_lt_Some _ _ _ Hl) as Hlt.
  assert (url ∉ take (t_idx s) (t_queue s)).
  { intros Hx. apply Hin. rewrite Hvis. by apply elem_of_list_to_set. }
  unfold text_inv; simpl. rewrite (take_snoc_ext _ _ _ url) by done.
  repeat split.
  - destruct Hq as [e0 ->]. exists (e0 ++ ext). by rewrite app_assoc.
  - rewrite length_app. lia.
  - rewrite map_app, Htr, dedupe_snoc, bool_decide_eq_false_2 by done.
    simpl. by rewrite He.
  - rewrite list_to_set_app_L, Hvis. set_solver.
Qed.

Lemma text_step_inv (w : Web) (q0 : list string) (s : TextState) :
  text_inv q0 s → text_inv q0 (step_state (text_step w s)).
Proof.
  intros Hs. pose proof Hs as (Hq & Hle & Htr & Hvis). unfold text_step.
  destruct (_ && _); [|done].
  destruct (t_queue s !! t_idx s) as [url|] eqn:Hl; [|done].
  pose proof (lookup_lt_Some _ _ _ Hl) as Hlt.
  destruct (decide (url ∈ t_visited s)) as [Hin|Hin].
  - unfold text_inv; simpl. rewrite (take_S_r _ _ url) by done.
    assert (url ∈ take (t_idx s) (t_queue s)).
    { rewrite Hvis in Hin. by apply elem_of_list_to_set in Hin. }
    repeat split; simpl; auto with lia.
    + rewrite dedupe_snoc, bool_decide_eq_true_2 by done.
      by rewrite app_nil_r.
    + rewrite list_to_set_app_L. set_solver.
  - destruct (fetch_html_fulltext w url) as [[fu html] ct].
    assert (Hnil : ∃ ext, t_queue s = t_queue s ++ ext)
      by (exists []; by rewrite app_nil_r).
    destruct html as [h|]; simpl;
      repeat match goal with
             | |- context [if ?b then _ else _] => destruct b
             | |- context [match ?o with Some _ => _ | None => _ end] => destruct o
             end;
      simpl; apply text_inv_attempt; try done;
      first [ apply enqueue_new_app | by eexists ].
Qed.

Lemma text_loop_inv (w : Web) (q0 : list string) (fuel : nat) (s : TextState) :
  text_inv q0 s → text_inv q0 (text_loop w fuel s).
Proof.
  revert s. induction fuel as [|n IH]; intros s Hs; simpl; [done|].
  pose proof (text_step_inv w q0 s Hs) as Hs'.
  destruct (text_step w s); simpl in *; [apply IH|]; done.
Qed.

Lemma list_to_set_dedupe (l : list string) :
  list_to_set (C:=gset string) (dedupe l) = list_to_set l.
Proof.
  apply set_eq. intros x. rewrite !elem_of_list_to_set. apply dedupe_elem.
Qed.

Lemma fig_step_stops_after_success (w : Web) (s : FigState) :
  downloaded_all s ≠ [] → fig_step w s = Exit s.
Proof.
  intros Hd. unfold fig_step. destruct (downloaded_all s); [done|].
  by rewrite andb_false_r.
Qed.

(** * Claims *)

(** ** C1 *)

(** C1 (counterexample). Frontier [[A; B; C]]: [A] is a PubMed article page
    without figures that links to the PMC page [D]; [B] answers 404, [C] is
    a PDF, [D] has two figures.  The figure crawl attempts [A], [B], [C] and
    only then [D], where it stops with two figures: [B] and [C] are
    attempted. *)
Lemma C1_B_and_C_attempted_before_D :
  let s := fig_loop Sample.web1 10 Sample.start1 in
  map ft_url (tried_meta s) = [Sample.A; Sample.B; Sample.C; Sample.D] ∧
  map dl_file (downloaded_all s) = ["figure_1.png"; "figure_2.jpg"] ∧
  fig_step Sample.web1 s = Exit s.
Proof. vm_compute. repeat split; reflexivity. Qed.

(** C1 (amended). In the figure crawl, at every point of the loop started
    from any frontier [q0]: the frontier is [q0] followed by the appended
    links, the trace holds the URLs of the consumed frontier entries in
    frontier order (first occurrences), and once an attempt has downloaded
    an image the loop makes no further step.  So links discovered on [A]
    come after [B] and [C]. *)
Theorem C1_fig_crawl_fifo_first_success (w : Web) (fuel : nat) (q0 : list string) :
  let s := fig_loop w fuel (mkFigState q0 0 ∅ [] [] []) in
  (∃ ext, url_queue s = q0 ++ ext) ∧
  map ft_url (tried_meta s) = dedupe (take (idx s) (url_queue s)) ∧
  (downloaded_all s ≠ [] → fig_step w s = Exit s).
Proof.
  simpl. destruct (fig_loop_inv w q0 fuel _ (fig_inv_init q0)) as (Hq & _ & Htr & _).
  split; [done|]. split; [done|]. apply fig_step_stops_after_success.
Qed.

(** ** C4 *)

(** C4. A record whose DOI and PMC id are both missing (or empty) gives an
    empty frontier in both crawls; each loop exits at once; [main] writes
    no file (only the output directory is created) and reports
    "not found". *)
Theorem C4_no_identifier_nothing_to_try (w : Web) (fuel : nat)
    (doi pmcid : option string)
    (Hdoi : truthy doi = false) (Hpmc : truthy pmcid = false) :
  fig_initial_queue doi pmcid = [] ∧ candidate_urls_for_entry doi pmcid = [] ∧
  fig_step w (fig_init doi pmcid) = Exit (fig_init doi pmcid) ∧
  text_step w (text_init doi pmcid) = Exit (text_init doi pmcid) ∧
  main_figures w fuel doi pmcid = mkRun ["figs"] [] false ∧
  main_fulltext w fuel doi pmcid = mkRun ["."] [] false.
Proof.
  assert (Hq : fig_initial_queue doi pmcid = [] ∧ candidate_urls_for_entry doi pmcid = []).
  { unfold fig_initial_queue, candidate_urls_for_entry.
    destruct doi as [d|], pmcid as [p|]; rewrite ?Hdoi, ?Hpmc; done. }
  destruct Hq as [Hq1 Hq2].
  unfold main_figures, main_fulltext, fig_init, text_init, fig_step, text_step.
  rewrite Hq1, Hq2. simpl. repeat split; destruct fuel; reflexivity.
Qed.

Lemma C4_witness :
  truthy None = false ∧ truthy None = false ∧
  main_figures Sample.web1 3 None None = mkRun ["figs"] [] false ∧
  main_fulltext Sample.web1 3 None None = mkRun ["."] [] false.
Proof.
  split; [reflexivity|]. split; [reflexivity|].
  destruct (C4_no_identifier_nothing_to_try Sample.web1 3 None None eq_refl eq_refl)
    as (_ & _ & _ & _ & H1 & H2).
  split; [exact H1 | exact H2].
Defined.

(** ** C5 *)

(** C5. In both crawls, from any frontier: no URL is attempted twice (the
    trace URLs are distinct), the visited set is exactly the set of
    attempted URLs, and the trace is as long as that set is large.  Skipped
    frontier entries leave no trace entry. *)
Theorem C5_no_refetch_trace_counts_attempts (w : Web) (fuel : nat) (q0 : list string) :
  let s := fig_loop w fuel (mkFigState q0 0 ∅ [] [] []) in
  let t := text_loop w fuel (mkTextState q0 0 ∅ [] None None) in
  (NoDup (map ft_url (tried_meta s)) ∧
   visited s = list_to_set (map ft_url (tried_meta s)) ∧
   length (tried_meta s) = size (visited s)) ∧
  (NoDup (map tt_url (tried t)) ∧
   t_visited t = list_to_set (map tt_url (tried t)) ∧
   length (tried t) = size (t_visited t)).
Proof.
  simpl. split.
  - destruct (fig_loop_inv w q0 fuel _ (fig_inv_init q0)) as (_ & _ & Htr & Hvis).
    rewrite Htr, Hvis, list_to_set_dedupe.
    assert (HN := dedupe_NoDup (take (idx (fig_loop w fuel (mkFigState q0 0 ∅ [] [] [])))
                                 (url_queue (fig_loop w fuel (mkFigState q0 0 ∅ [] [] []))))).
    split; [done|]. split; [done|].
    rewrite <- list_to_set_dedupe, size_list_to_set by done.
    by rewrite <- Htr, length_map.
  - destruct (text_loop_inv w q0 fuel _ (text_inv_init q0)) as (_ & _ & Htr & Hvis).
    rewrite Htr, Hvis, list_to_set_dedupe.
    assert (HN := dedupe_NoDup (take (t_idx (text_loop w fuel (mkTextState q0 0 ∅ [] None None)))
                                 (t_queue (text_loop w fuel (mkTextState q0 0 ∅ [] None None))))).
    split; [done|]. split; [done|].
    rewrite <- list_to_set_dedupe, size_list_to_set by done.
    by rewrite <- Htr, length_map.
Qed.

Lemma truthy_Some (h : string) : h ≠ "" → truthy (Some h) = true.
Proof.
  intros Hh. unfold truthy. destruct (String.eqb h "") eqn:E; [|done].
  apply String.eqb_eq in E. done.
Qed.

(** ** The fetcher's two results *)

Lemma fetch_html_cases (w : Web) (url : string) :
  fetch_html w url = (None, None, None) ∨
  ∃ r, http_get w url = Returned r ∧ status_code r = 200 ∧
       contains "html" (lower (default "" (content_type r))) = true ∧
       fetch_html w url = (Some (resp_url r), Some (resp_text r),
                           Some (lower (default "" (content_type r)))).
Proof.
  unfold fetch_html. destruct (http_get w url) as [e|r]; [by left|].
  destruct (Z.eqb (status_code r) 200) eqn:E1; simpl; [|by left].
  destruct (contains "html" _) eqn:E2; simpl; [|by left].
  right. exists r. apply Z.eqb_eq in E1. done.
Qed.

Lemma fetch_html_fulltext_same (w : Web) (url : string) :
  fetch_html_fulltext w url = fetch_html w url.
Proof.
  unfold fetch_html_fulltext, fetch_html. destruct (http_get w url); [done|].
  by destruct (Z.eqb _ _), (contains _ _).
Qed.

(** ** C2 *)

(** C2 (counterexample). The DOI resolver fails and the PubMed search page
    shows an image inside a [<figure>]: the figure crawl downloads it from
    the PubMed page (host [pubmed.ncbi.nlm.nih.gov], neither PMC nor a
    publisher) and stops there with success. *)
Lemma C2_figure_taken_from_pubmed_page :
  let s := fig_loop Sample2.web2 10 (fig_init (Some Sample2.doi) None) in
  found (main_figures Sample2.web2 10 (Some Sample2.doi) None) = true ∧
  map dl_url (downloaded_all s) = [Sample2.LOGO] ∧
  last (map ft_url (tried_meta s)) = Some Sample2.SEARCH ∧
  host_of (Some Sample2.SEARCH) Sample2.SEARCH = "pubmed.ncbi.nlm.nih.gov".
Proof. vm_compute. repeat split; reflexivity. Qed.

(** C2 (amended). Figure crawl: the images downloaded from a fetched,
    non-empty HTML page are those extracted from it, whatever its host, and
    the crawl stops at the first page an image is downloaded from: the step
    attempting a page keeps the downloads of that page, and when there are
    any, the loop takes no further step.
    Full-text crawl: the loop takes a page as its result only when the
    page's host contains [pmc.ncbi.nlm.nih.gov] or [learnmem.cshlp.org];
    a non-empty HTML page on a host that is neither PubMed, PMC nor
    learnmem adds no link, takes no content, and the loop goes on with the
    next entry. *)
Theorem C2_terminal_content_by_host (w : Web) :
  (∀ url s fu h ct, fetch_html w url = (Some fu, Some h, Some ct) → h ≠ "" →
     (try_download_from_url w url s).1 =
     (download_images w 1 (extract_img_urls_from_html w fu h)).1) ∧
  (∀ t t', text_step w t = Exit t' → full_html t' ≠ full_html t →
     ∃ url fu h ct, t_queue t !! t_idx t = Some url ∧
       fetch_html_fulltext w url = (Some fu, Some h, Some ct) ∧
       (contains "pmc.ncbi.nlm.nih.gov" (host_of (Some fu) url)
        || contains "learnmem.cshlp.org" (host_of (Some fu) url)) = true ∧
       full_html t' = Some h) ∧
  (∀ t url fu h ct,
     (t_idx t < length (t_queue t))%nat → truthy (full_html t) = false →
     t_queue t !! t_idx t = Some url → url ∉ t_visited t →
     fetch_html_fulltext w url = (Some fu, Some h, Some ct) → h ≠ "" →
     contains "pubmed.ncbi.nlm.nih.gov" (host_of (Some fu) url) = false →
     contains "pmc.ncbi.nlm.nih.gov" (host_of (Some fu) url) = false →
     contains "learnmem.cshlp.org" (host_of (Some fu) url) = false →
     ∃ t', text_step w t = Continue t' ∧ t_queue t' = t_queue t ∧
           full_html t' = full_html t ∧ t_idx t' = S (t_idx t)) ∧
  (∀ s url, downloaded_all s = [] → url_queue s !! idx s = Some url → url ∉ visited s →
     ∃ s', fig_step w s = Continue s' ∧
           downloaded_all s' =
             (try_download_from_url w url
                (mkFigState (url_queue s) (S (idx s)) (visited s) (tried_meta s) []
                   (fig_writes s))).1 ∧
           (downloaded_all s' ≠ [] → fig_step w s' = Exit s')).
Proof.
  split; [|split; [|split]].
  - intros url s fu h ct Hf Hh. unfold try_download_from_url. rewrite Hf.
    cbv beta iota zeta. rewrite truthy_Some by done.
    destruct (download_images _ _ _) as [d ws].
    by destruct (contains _ _).
  - intros t t' Hst Hne. unfold text_step in Hst.
    destruct (_ && _); [|inversion Hst; subst; done].
    destruct (t_queue t !! t_idx t) as [url|] eqn:Hl; [|inversion Hst; subst; done].
    destruct (decide _); [discriminate|].
    rewrite fetch_html_fulltext_same in Hst.
    destruct (fetch_html_cases w url) as [Hn | (r & _ & _ & _ & Hf)].
    { rewrite Hn in Hst. discriminate. }
    rewrite Hf in Hst. cbv beta iota zeta in Hst. unfold host_of.
    destruct (negb (truthy (Some (resp_text r)))); [discriminate|].
    destruct (contains "pubmed.ncbi.nlm.nih.gov" _ && _); [discriminate|].
    destruct (contains "pubmed.ncbi.nlm.nih.gov" _); [discriminate|].
    destruct (_ || _) eqn:Ehost; [|discriminate].
    inversion Hst; subst; clear Hst.
    eexists _, _, _, _. split; [done|].
    rewrite fetch_html_fulltext_same. split; [exact Hf|]. done.
  - intros t url fu h ct Hlt Hfh Hl Hv Hf Hh Hpub Hpmc Hlm.
    unfold text_step. apply Nat.ltb_lt in Hlt. rewrite Hlt, Hfh. simpl.
    rewrite Hl. destruct (decide _); [done|].
    rewrite Hf. cbv beta iota zeta. rewrite truthy_Some by done. simpl negb.
    unfold host_of in *. rewrite Hpub, Hpmc, Hlm. simpl.
    by eexists.
  - intros s url Hd Hl Hv. unfold fig_step. rewrite Hd.
    pose proof (lookup_lt_Some _ _ _ Hl) as Hlt. apply Nat.ltb_lt in Hlt.
    rewrite Hlt. simpl. rewrite Hl. cbn [visited]. rewrite decide_False by done.
    pose proof (try_download_shape w url
      (mkFigState (url_queue s) (S (idx s)) (visited s) (tried_meta s) []
         (fig_writes s))) as Hsh.
    destruct (try_download_from_url w url _) as [new s2].
    destruct Hsh as (_ & _ & _ & _ & Hd2 & _). simpl in Hd2.
    eexists. split; [reflexivity|]. cbn [downloaded_all]. rewrite Hd2.
    split; [done|]. intros Hne. by apply fig_step_stops_after_success.
Qed.

Lemma C2_witness :
  (try_download_from_url Sample2.web2 Sample2.SEARCH (fig_init (Some Sample2.doi) None)).1
    = [mkDownload Sample2.LOGO "figure_1.png"] ∧
  ∃ t', text_step Sample2.web2 (mkTextState [Sample2.BLOG] 0 ∅ [] None None) = Continue t' ∧
        t_queue t' = [Sample2.BLOG] ∧ full_html t' = None ∧ t_idx t' = 1%nat.
Proof.
  destruct (C2_terminal_content_by_host Sample2.web2) as (Ha & _ & Hc & _). split.
  - rewrite (Ha Sample2.SEARCH _ Sample2.SEARCH "pageS" "text/html");
      [reflexivity | reflexivity | discriminate].
  - apply (Hc (mkTextState [Sample2.BLOG] 0 ∅ [] None None)
              Sample2.BLOG Sample2.BLOG "pageBlog" "text/html");
      first [ reflexivity | vm_compute; lia | discriminate | set_solver ].
Defined.

(** ** C3 *)

(** C3 (counterexample). On the PubMed search page of [Sample2] the figure
    crawl does not enqueue the first result [/222/], and it downloads the
    page's image as its result; the full-text crawl enqueues [/222/]. *)
Lemma C3_fig_crawl_ignores_search_result_link :
  let s := fig_loop Sample2.web2 10 (fig_init (Some Sample2.doi) None) in
  let t := text_loop Sample2.web2 10 (text_init (Some Sample2.doi) None) in
  url_queue s = [Sample2.DOI_URL; Sample2.SEARCH] ∧
  map dl_url (downloaded_all s) = [Sample2.LOGO] ∧
  t_queue t = [Sample2.DOI_URL; Sample2.SEARCH; Sample2.ARTICLE].
Proof. vm_compute. repeat split; reflexivity. Qed.

(** C3 (amended). Full-text crawl: on every non-empty HTML page whose
    host contains [pubmed.ncbi.nlm.nih.gov] and whose URL contains
    [/?term=], no content is taken and the loop goes on with the next
    entry; the only link added is the [href] of the first [a.docsum-title]
    link, when present and non-empty, joined to the page URL and appended
    to the frontier unless already visited or queued.  Figure crawl: a page on a
    PubMed host, search page or not, has its PMC links appended (unless
    visited or queued) and its figure images still extracted and
    downloaded; the search-result link is not followed. *)
Theorem C3_pubmed_search_handling (w : Web) :
  (∀ t url fu h ct,
     (t_idx t < length (t_queue t))%nat → truthy (full_html t) = false →
     t_queue t !! t_idx t = Some url → url ∉ t_visited t →
     fetch_html_fulltext w url = (Some fu, Some h, Some ct) → h ≠ "" →
     contains "pubmed.ncbi.nlm.nih.gov" (host_of (Some fu) url) = true →
     contains "/?term=" (py_or (Some fu) url) = true →
     ∃ t', text_step w t = Continue t' ∧
           t_queue t' = t_queue t ++
             match soup_docsum_title (parse_html w h) with
             | Some (Some href) =>
                 if String.eqb href "" then [] else
                 let art_url := urljoin w fu href in
                 if bool_decide ((art_url ∉ {[url]} ∪ t_visited t) ∧ art_url ∉ t_queue t)
                 then [art_url] else []
             | _ => []
             end ∧
           full_html t' = full_html t ∧ t_idx t' = S (t_idx t)) ∧
  (∀ url s fu h ct,
     fetch_html w url = (Some fu, Some h, Some ct) → h ≠ "" →
     contains "pubmed.ncbi.nlm.nih.gov" (host_of (Some fu) url) = true →
     url_queue (try_download_from_url w url s).2 =
       enqueue_new ({[url]} ∪ visited s) (url_queue s) (find_pmc_links_in_html w fu h) ∧
     (try_download_from_url w url s).1 =
       (download_images w 1 (extract_img_urls_from_html w fu h)).1).
Proof.
  split.
  - intros t url fu h ct Hlt Hfh Hl Hv Hf Hh Hpub Hterm.
    unfold text_step. apply Nat.ltb_lt in Hlt. rewrite Hlt, Hfh. simpl.
    rewrite Hl. destruct (decide _); [done|].
    rewrite Hf. cbv beta iota zeta. rewrite truthy_Some by done. simpl negb.
    unfold host_of in Hpub. rewrite Hpub, Hterm. simpl andb. cbv beta iota zeta.
    eexists. split; [reflexivity|]. split; [|done]. simpl.
    destruct (soup_docsum_title (parse_html w h)) as [[href|]|];
      [|by rewrite app_nil_r..].
    unfold truthy. destruct (String.eqb href "") eqn:Eh; simpl;
      [by rewrite app_nil_r|].
    do 3 case_bool_decide; first [by rewrite app_nil_r | tauto].
  - intros url s fu h ct Hf Hh Hpub. unfold try_download_from_url. rewrite Hf.
    cbv beta iota zeta. rewrite truthy_Some by done.
    unfold host_of in Hpub. rewrite Hpub.
    by destruct (download_images _ _ _) as [d ws].
Qed.

Lemma C3_witness :
  ∃ t', text_step Sample2.web2 (mkTextState [Sample2.SEARCH] 0 ∅ [] None None) = Continue t' ∧
        t_queue t' = [Sample2.SEARCH] ++ [Sample2.ARTICLE] ∧ full_html t' = None.
Proof.
  destruct (C3_pubmed_search_handling Sample2.web2) as (Hs & _).
  destruct (Hs (mkTextState [Sample2.SEARCH] 0 ∅ [] None None) Sample2.SEARCH
              Sample2.SEARCH "pageS" "text/html"
              ltac:(vm_compute; lia) eq_refl eq_refl ltac:(set_solver) eq_refl
              ltac:(discriminate) eq_refl eq_refl)
    as (t' & H1 & H2 & H3 & _).
  exists t'. split; [exact H1|]. split; [|exact H3].
  rewrite H2. vm_compute. reflexivity.
Defined.

(** ** C6 *)

(** C6 (counterexample). In the full-text crawl the PDF entry [C] of
    [Sample] is recorded with content type ["unknown"]; its trace entries
    have no status label, so no ["no_html"] is recorded. *)
Lemma C6_fulltext_records_unknown_ctype :
  tried (step_state (text_step Sample.web1 (mkTextState [Sample.C] 0 ∅ [] None None)))
  = [mkTextTrace Sample.C None "unknown"].
Proof. vm_compute. reflexivity. Qed.

(** C6 (amended). A response whose lower-cased content type does not
    contain ["html"] makes [fetch_html] return [(None, None, None)]: the
    parser is never called.  The figure crawl records
    [{url, final_url: None, status: "no_html"}], the full-text crawl
    records [{url, final_url: None, ctype: "unknown"}], and both go on. *)
Theorem C6_non_html_skipped (w : Web) (url : string) (r : Response)
    (Hget : http_get w url = Returned r)
    (Hct : contains "html" (lower (default "" (content_type r))) = false) :
  fetch_html w url = (None, None, None) ∧
  (∀ s, try_download_from_url w url s =
        ([], mkFigState (url_queue s) (idx s) ({[url]} ∪ visited s)
               (tried_meta s ++ [mkFigTrace url None "no_html"])
               (downloaded_all s) (fig_writes s))) ∧
  (∀ t, (t_idx t < length (t_queue t))%nat → truthy (full_html t) = false →
        t_queue t !! t_idx t = Some url → url ∉ t_visited t →
        text_step w t =
        Continue (mkTextState (t_queue t) (S (t_idx t)) ({[url]} ∪ t_visited t)
                   (tried t ++ [mkTextTrace url None "unknown"])
                   (full_html t) (final_used_url t))).
Proof.
  assert (Hf : fetch_html w url = (None, None, None)).
  { unfold fetch_html. rewrite Hget, Hct. by destruct (Z.eqb _ _). }
  split; [done|]. split.
  - intros s. unfold try_download_from_url. by rewrite Hf.
  - intros t Hlt Hfh Hl Hv. unfold text_step.
    apply Nat.ltb_lt in Hlt. rewrite Hlt, Hfh. simpl. rewrite Hl.
    destruct (decide _); [done|]. by rewrite fetch_html_fulltext_same, Hf.
Qed.

Lemma C6_witness :
  fetch_html Sample.web1 Sample.C = (None, None, None) ∧
  text_step Sample.web1 (mkTextState [Sample.C] 0 ∅ [] None None) =
  Continue (mkTextState [Sample.C] 1 ({[Sample.C]} ∪ ∅)
              [mkTextTrace Sample.C None "unknown"] None None).
Proof.
  destruct (C6_non_html_skipped Sample.web1 Sample.C
              (mkResponse 200 (Some "application/pdf") Sample.C "%PDF" "%PDF")
              eq_refl eq_refl) as (H1 & _ & H3).
  split; [exact H1|].
  exact (H3 (mkTextState [Sample.C] 0 ∅ [] None None)
            ltac:(vm_compute; lia) eq_refl eq_refl ltac:(set_solver)).
Defined.

(** ** C7 *)

(** C7 (counterexample). A 404 ([B]), a PDF ([C]) and a transport error
    give the same result of the fetcher, in both files. *)
Lemma C7_failures_indistinguishable :
  fetch_html Sample.web1 Sample.B = (None, None, None) ∧
  fetch_html Sample.web1 Sample.C = (None, None, None) ∧
  fetch_html Sample.web1 "https://unreachable.example/" = (None, None, None) ∧
  fetch_html_fulltext Sample.web1 Sample.B = (None, None, None) ∧
  fetch_html_fulltext Sample.web1 Sample.C = (None, None, None) ∧
  fetch_html_fulltext Sample.web1 "https://unreachable.example/" = (None, None, None).
Proof. vm_compute. repeat split; reflexivity. Qed.

(** C7 (amended). The fetcher of either file has two kinds of result:
    [(final_url, text, ctype)] for a status-200 response whose lower-cased
    content type contains ["html"], and [(None, None, None)] when
    [requests.get] raises, the status is not 200, or the content type is not
    HTML; the failure result carries no status, reason or content type. *)
Theorem C7_fetch_two_results (w : Web) (url : string) :
  (fetch_html w url = (None, None, None) ↔
   match http_get w url with
   | Raised _ => True
   | Returned r => status_code r ≠ 200 ∨
                   contains "html" (lower (default "" (content_type r))) = false
   end) ∧
  (fetch_html w url = (None, None, None) ∨
   ∃ r, http_get w url = Returned r ∧ status_code r = 200 ∧
        contains "html" (lower (default "" (content_type r))) = true ∧
        fetch_html w url = (Some (resp_url r), Some (resp_text r),
                            Some (lower (default "" (content_type r))))) ∧
  fetch_html_fulltext w url = fetch_html w url.
Proof.
  split; [|split; [apply fetch_html_cases | apply fetch_html_fulltext_same]].
  unfold fetch_html. destruct (http_get w url) as [e|r]; [done|].
  destruct (Z.eqb (status_code r) 200) eqn:E1; simpl.
  - apply Z.eqb_eq in E1. destruct (contains "html" _); simpl; split.
    + discriminate.
    + intros [H|H]; done.
    + intros _. by right.
    + done.
  - apply Z.eqb_neq in E1. split; [by left|done].
Qed.

(** ** C8 *)

(** C8 (counterexample). A URL containing [.jpg] that also contains
    [.png] is saved as [.png]. *)
Lemma C8_jpg_url_saved_as_png :
  contains ".jpg" (lower "https://example.org/img.png/thumb.JPG") = true ∧
  infer_ext "https://example.org/img.png/thumb.JPG" = ".png".
Proof. vm_compute. split; reflexivity. Qed.

(** C8 (amended). The extension is the first of [.png], [.jpg], [.jpeg],
    [.tif], [.tiff], [.gif] occurring in the lower-cased URL, [.png] when
    none occurs: [.jpg] exactly when [.jpg] occurs and [.png] does not;
    [.png] exactly when [.png] occurs or none of the list does. *)
Theorem C8_infer_ext_first_match (u : string) :
  (infer_ext u = ".jpg" ↔
   contains ".png" (lower u) = false ∧ contains ".jpg" (lower u) = true) ∧
  (infer_ext u = ".png" ↔
   contains ".png" (lower u) = true ∨
   forallb (λ e, negb (contains e (lower u))) known_exts = true) ∧
  infer_ext u ∈ known_exts.
Proof.
  unfold infer_ext, known_exts. simpl.
  destruct (contains ".png" (lower u)), (contains ".jpg" (lower u)),
    (contains ".jpeg" (lower u)), (contains ".tif" (lower u)),
    (contains ".tiff" (lower u)), (contains ".gif" (lower u)); simpl;
  (split; [|split]); try (split; intros H; first [ discriminate
                                                 | by destruct H
                                                 | done
                                                 | destruct H as [H|H]; discriminate
                                                 | by left | by right ]);
  set_solver.
Qed.

(** ** C9 *)

(** C9 (counterexample). Of the candidates [[missing.png; f1.png]], the
    first cannot be downloaded: the only file saved is [figure_2.png]. *)
Lemma C9_numbering_has_gaps :
  download_images Sample.web1 1
    ["https://pmc.ncbi.nlm.nih.gov/missing.png"; "https://pmc.ncbi.nlm.nih.gov/f1.png"] =
  ([mkDownload "https://pmc.ncbi.nlm.nih.gov/f1.png" "figure_2.png"],
   [("figs/figure_2.png", Bytes "PNG1")]).
Proof. vm_compute. reflexivity. Qed.

(** C9 (amended). Candidate number [n] (from 1, in extraction order) is
    handled on its own: it is saved as [figure_<n><ext>] when its download
    answers 200 with a non-empty body and skipped otherwise.  The numbers
    are the candidates' positions, so a skipped candidate leaves a gap. *)
Theorem C9_per_candidate_numbering (w : Web) (i : nat) (urls : list string) :
  download_images w i urls =
  (map fst (omap (λ nu, image_outcome w nu.1 nu.2) (zip (seq i (length urls)) urls)),
   map snd (omap (λ nu, image_outcome w nu.1 nu.2) (zip (seq i (length urls)) urls))).
Proof.
  revert i. induction urls as [|u us IH]; intros i; [done|].
  simpl. rewrite IH. unfold image_outcome.
  destruct (http_get w u) as [e|r]; [done|].
  destruct (Z.eqb (status_code r) 200), (String.eqb (resp_content r) ""); done.
Qed.

(** ** C10 *)

Lemma download_images_all_fail (w : Web) (i : nat) (urls : list string) :
  Forall (λ u, ¬ image_ok w u) urls → (download_images w i urls).1 = [].
Proof.
  intros Hf. revert i. induction Hf as [|u us Hu Hus IH]; intros i; [done|].
  simpl. specialize (IH (S i)). destruct (download_images w (S i) us) as [d ws].
  simpl in IH. unfold image_ok in Hu.
  destruct (http_get w u) as [e|r]; [done|].
  destruct (Z.eqb (status_code r) 200) eqn:E1; simpl; [|done].
  destruct (String.eqb (resp_content r) "") eqn:E2; simpl; [done|].
  exfalso. apply Hu. apply Z.eqb_eq in E1. split; [done|].
  intros He. rewrite He in E2. done.
Qed.

Lemma fig_step_downloads_ok (w : Web) (s : FigState) :
  Forall (λ d, image_ok w (dl_url d)) (downloaded_all s) →
  Forall (λ d, image_ok w (dl_url d)) (downloaded_all (step_state (fig_step w s))).
Proof.
  intros Hs. unfold fig_step.
  destruct (_ && _); [|done].
  destruct (url_queue s !! idx s) as [url|]; [|done]. cbn [visited].
  destruct (decide (url ∈ visited s)); [done|].
  pose proof (try_download_shape w url
    (mkFigState (url_queue s) (S (idx s)) (visited s) (tried_meta s)
       (downloaded_all s) (fig_writes s))) as Hsh.
  destruct (try_download_from_url w url _) as [new s2].
  destruct Hsh as (_ & _ & _ & _ & Hd & Hnew). simpl. rewrite Hd.
  apply Forall_app. by split.
Qed.

Lemma fig_loop_downloads_ok (w : Web) (fuel : nat) (s : FigState) :
  Forall (λ d, image_ok w (dl_url d)) (downloaded_all s) →
  Forall (λ d, image_ok w (dl_url d)) (downloaded_all (fig_loop w fuel s)).
Proof.
  revert s. induction fuel as [|n IH]; intros s Hs; simpl; [done|].
  pose proof (fig_step_downloads_ok w s Hs) as Hs'.
  destruct (fig_step w s); simpl in *; [apply IH|]; done.
Qed.

(** C10. The figure crawl reports success only when some image was really
    downloaded (status 200, non-empty body), and a page whose image
    downloads all fail adds nothing: the loop goes on with the next
    frontier entry. *)
Theorem C10_success_needs_downloaded_image (w : Web) (fuel : nat)
    (doi pmcid : option string) :
  (found (main_figures w fuel doi pmcid) = true →
   ∃ d, d ∈ downloaded_all (fig_loop w fuel (fig_init doi pmcid)) ∧
        image_ok w (dl_url d)) ∧
  (∀ (s : FigState) (url : string),
     downloaded_all s = [] → url_queue s !! idx s = Some url →
     (∀ fu h ct, fetch_html w url = (Some fu, Some h, Some ct) →
        Forall (λ u, ¬ image_ok w u) (extract_img_urls_from_html w fu h)) →
     (try_download_from_url w url s).1 = [] ∧
     ∃ s', fig_step w s = Continue s' ∧ downloaded_all s' = [] ∧ idx s' = S (idx s)).
Proof.
  split.
  { unfold main_figures. intros Hfound.
    pose proof (fig_loop_downloads_ok w fuel (fig_init doi pmcid) (Forall_nil_2 _)) as Hok.
    destruct (downloaded_all (fig_loop w fuel (fig_init doi pmcid))) as [|d ds];
      [discriminate|].
    exists d. split; [set_solver|]. by inversion Hok. }
  intros s url Hnone Hl Hfail.
  assert (Hempty : ∀ s0, (try_download_from_url w url s0).1 = []).
  { intros s0. unfold try_download_from_url.
    destruct (fetch_html_cases w url) as [Hn | (r & _ & _ & _ & Hf)].
    - by rewrite Hn.
    - rewrite Hf. cbv beta iota zeta.
      destruct (truthy (Some (resp_text r))); [|done].
      pose proof (download_images_all_fail w 1 _ (Hfail _ _ _ Hf)) as H0.
      destruct (download_images _ _ _) as [d ws]. simpl in *. done. }
  split; [apply Hempty|].
  - unfold fig_step. rewrite Hnone, Hl. pose proof (lookup_lt_Some _ _ _ Hl) as Hlt.
    apply Nat.ltb_lt in Hlt. rewrite Hlt. simpl.
    destruct (decide (url ∈ visited s)); [by eexists|].
    specialize (Hempty (mkFigState (url_queue s) (S (idx s)) (visited s) (tried_meta s)
                          [] (fig_writes s))).
    pose proof (try_download_shape w url
      (mkFigState (url_queue s) (S (idx s)) (visited s) (tried_meta s)
         [] (fig_writes s))) as Hsh.
    destruct (try_download_from_url w url _) as [new s2].
    destruct Hsh as (_ & Hidx & _ & _ & Hd & _). simpl in *. subst new.
    eexists. split; [reflexivity|]. simpl. by rewrite Hd, Hidx.
Qed.

Lemma C10_witness :
  (∃ d, d ∈ downloaded_all (fig_loop Sample.web1 5 (fig_init None (Some "PMC9"))) ∧
        image_ok Sample.web1 (dl_url d)) ∧
  ∃ s', fig_step Sample2.web2 (mkFigState [Sample2.BROKEN] 0 ∅ [] [] []) = Continue s' ∧
        downloaded_all s' = [] ∧ idx s' = 1%nat.
Proof.
  split.
  - destruct (C10_success_needs_downloaded_image Sample.web1 5 None (Some "PMC9"))
      as (Hf & _).
    apply Hf. vm_compute. reflexivity.
  - destruct (C10_success_needs_downloaded_image Sample2.web2 1 None None) as (_ & Hs).
    destruct (Hs (mkFigState [Sample2.BROKEN] 0 ∅ [] [] []) Sample2.BROKEN eq_refl eq_refl
                ltac:(intros fu h ct Hf; vm_compute in Hf; injection Hf as <- <- <-;
                      vm_compute; constructor; [intros H; exact H | constructor]))
      as (_ & H).
    exact H.
Defined.

(** * Further properties of the crawlers *)

(** ** Deduplication *)

Lemma dedupe_go_app (seen : gset string) (l1 l2 : list string) :
  dedupe_go seen (l1 ++ l2) = dedupe_go seen l1 ++ dedupe_go (seen ∪ list_to_set l1) l2.
Proof.
  revert seen. induction l1 as [|u us IH]; intros seen; simpl.
  - by rewrite union_empty_r_L.
  - destruct (decide (u ∈ seen)) as [Hu|Hu]; rewrite IH.
    + by replace (seen ∪ ({[u]} ∪ list_to_set us)) with (seen ∪ list_to_set us)
        by set_solver.
    + simpl. by replace (seen ∪ ({[u]} ∪ list_to_set us))
        with ({[u]} ∪ seen ∪ list_to_set us) by set_solver.
Qed.

Lemma dedupe_go_id (seen : gset string) (l : list string) :
  NoDup l → (∀ x, x ∈ l → x ∉ seen) → dedupe_go seen l = l.
Proof.
  intros HN. revert seen. induction HN as [|u us Hu HN IH]; intros seen Hs; [done|].
  simpl. rewrite decide_False by set_solver. f_equal. apply IH.
  intros x Hx Hx'. apply elem_of_union in Hx' as [Hx'|Hx']; [set_solver|].
  apply (Hs x); [set_solver|done].
Qed.

(** X1. The order-preserving deduplication ([seen]-set idiom and
    [dict.fromkeys]) returns a duplicate-free list with the same elements,
    leaves a duplicate-free list unchanged, and on a concatenation keeps the
    deduplicated first part as a prefix. *)
Theorem X1_dedupe_spec (l : list string) :
  NoDup (dedupe l) ∧ (∀ x, x ∈ dedupe l ↔ x ∈ l) ∧
  (NoDup l → dedupe l = l) ∧
  (∀ l2, dedupe (l ++ l2) = dedupe l ++ dedupe_go (list_to_set l) l2).
Proof.
  split; [apply dedupe_NoDup|]. split; [apply dedupe_elem|]. split.
  - intros HN. apply dedupe_go_id; [done|set_solver].
  - intros l2. unfold dedupe. rewrite dedupe_go_app. by rewrite union_empty_l_L.
Qed.

Lemma X1_witness : dedupe ["a"; "b"] = ["a"; "b"].
Proof.
  destruct (X1_dedupe_spec ["a"; "b"]) as (_ & _ & H & _).
  apply H. repeat constructor; set_solver.
Defined.

(** ** Growing the frontier *)

Lemma enqueue_new_dedupe (vis : gset string) (q cands : list string) :
  enqueue_new vis q cands = q ++ dedupe_go (vis ∪ list_to_set q) cands.
Proof.
  revert q. induction cands as [|c cs IH]; intros q; simpl.
  - by rewrite app_nil_r.
  - destruct (decide (c ∈ vis ∪ list_to_set q)) as [Hc|Hc].
    + assert (Hb : (bool_decide (c ∉ vis) && bool_decide (c ∉ q)) = false).
      { apply elem_of_union in Hc as [Hc|Hc].
        - rewrite (bool_decide_eq_false_2 (c ∉ vis)); [done|tauto].
        - apply elem_of_list_to_set in Hc.
          rewrite (bool_decide_eq_false_2 (c ∉ q)) by tauto. apply andb_false_r. }
      by rewrite Hb, IH.
    + rewrite bool_decide_eq_true_2 by set_solver.
      rewrite bool_decide_eq_true_2 by (intros Hq; apply Hc; set_solver).
      simpl. rewrite IH, <- app_assoc. simpl. do 3 f_equal.
      rewrite list_to_set_app_L. set_solver.
Qed.

(** X2. Appending discovered links ([enqueue_new]) adds, after the current
    frontier and in discovery order, each candidate that is neither visited,
    already queued, nor a repeat of an earlier candidate. *)
Theorem X2_enqueue_new_spec (vis : gset string) (q cands : list string) :
  enqueue_new vis q cands = q ++ dedupe_go (vis ∪ list_to_set q) cands.
Proof. apply enqueue_new_dedupe. Qed.

(** ** Extension inference *)

Lemma prefix_app_l (a b s : string) :
  String.prefix (String.append a b) s = true → String.prefix a s = true.
Proof.
  revert s. induction a as [|c a IH]; intros s; [by destruct s|].
  destruct s as [|c' s]; simpl; [done|].
  destruct (Ascii.ascii_dec c c'); [apply IH|done].
Qed.

Lemma contains_app_l (a b s : string) :
  contains (String.append a b) s = true → contains a s = true.
Proof.
  induction s as [|c s IH]; intros H.
  - destruct a; simpl in *; done.
  - change (String.prefix (String.append a b) (String c s)
            || contains (String.append a b) s = true) in H.
    change (String.prefix a (String c s) || contains a s = true).
    apply orb_true_iff in H as [H|H]; apply orb_true_iff; [left|right].
    + by apply (prefix_app_l a b).
    + by apply IH.
Qed.

(** X3. A figure is never saved with the extension [.tiff]: any URL that
    contains [.tiff] also contains [.tif], which the ordered list tries
    first. *)
Theorem X3_infer_ext_never_tiff (u : string) : infer_ext u ≠ ".tiff".
Proof.
  unfold infer_ext, known_exts. simpl.
  pose proof (contains_app_l ".tif" "f" (lower u)) as Ht.
  change (String.append ".tif" "f") with ".tiff" in Ht.
  destruct (contains ".png" (lower u)), (contains ".jpg" (lower u)),
    (contains ".jpeg" (lower u)), (contains ".tif" (lower u)),
    (contains ".tiff" (lower u)), (contains ".gif" (lower u)); simpl;
    try discriminate.
  all: specialize (Ht eq_refl); discriminate.
Qed.

(** ** PMC links of a PubMed page *)

(** X4. [find_pmc_links_in_html] (and the identical
    [find_pmc_links_in_pubmed]) returns without duplicates exactly the
    links [urljoin(base_url, href)] of the anchors whose [href] contains
    [pmc.ncbi.nlm.nih.gov]. *)
Theorem X4_find_pmc_links_spec (w : Web) (base_url html : string) :
  find_pmc_links_in_pubmed w base_url html = find_pmc_links_in_html w base_url html ∧
  NoDup (find_pmc_links_in_html w base_url html) ∧
  (∀ x, x ∈ find_pmc_links_in_html w base_url html ↔
        ∃ href, href ∈ soup_a_hrefs (parse_html w html) ∧
                contains "pmc.ncbi.nlm.nih.gov" href = true ∧
                x = urljoin w base_url href).
Proof.
  split; [done|]. split; [apply dedupe_NoDup|].
  intros x. unfold find_pmc_links_in_html. rewrite dedupe_elem.
  rewrite list_elem_of_In, in_map_iff. split.
  - intros (href & <- & Hin). rewrite <- list_elem_of_In, list_elem_of_filter in Hin.
    exists href. tauto.
  - intros (href & Hin & Hc & ->). exists href. split; [done|].
    rewrite <- list_elem_of_In, list_elem_of_filter. done.
Qed.

(** ** The seed frontier *)

Lemma dedupe_nodup_id (l : list string) : NoDup l → dedupe l = l.
Proof. intros. apply dedupe_go_id; [done|set_solver]. Qed.

(** X5. Both scripts start from the same frontier: the PMC page of the
    [pmcid] when it is non-empty, then, when the DOI is non-empty, its
    [doi.org] landing page and the PubMed search for it; the deduplication
    removes nothing. *)
Theorem X5_seed_frontier (doi pmcid : option string) :
  fig_initial_queue doi pmcid = candidate_urls_for_entry doi pmcid ∧
  candidate_urls_for_entry doi pmcid =
    (if truthy pmcid then [pmc_url (default "" pmcid)] else []) ++
    (if truthy doi then ["https://doi.org/" +:+ default "" doi;
                         "https://pubmed.ncbi.nlm.nih.gov/?term=" +:+ default "" doi]
     else []).
Proof.
  split; [done|]. unfold candidate_urls_for_entry.
  destruct pmcid as [p|], doi as [d|]; simpl;
    repeat case_match; simpl; try done; apply dedupe_nodup_id;
    repeat (apply NoDup_cons; split); try apply NoDup_nil_2;
    rewrite ?not_elem_of_cons; repeat split; try apply not_elem_of_nil;
    intros Hx; unfold pmc_url in Hx; simpl in Hx; discriminate.
Qed.

(** ** The network location of a URL *)

Lemma split_colon_scheme (sch rest : string) :
  all_chars scheme_char sch = true →
  split_colon (sch +:+ ":" +:+ rest) = Some (sch, rest).
Proof.
  induction sch as [|c sch IH]; [done|]. simpl. intros H.
  apply andb_true_iff in H as [Hc H]. rewrite IH by done.
  destruct (Ascii.eqb c ":") eqn:E; [|done].
  apply Ascii.eqb_eq in E. subst c. discriminate Hc.
Qed.

Lemma substring_0_long (s : string) (m : nat) :
  (String.length s ≤ m)%nat → String.substring 0 m s = s.
Proof.
  revert m. induction s as [|c s IH]; intros m Hm; simpl; [by destruct m|].
  simpl in Hm. destruct m as [|m]; [lia|]. rewrite IH; [done|lia].
Qed.

Lemma take_netloc_app (host rest : string) :
  all_chars (λ c, negb (netloc_delim c)) host = true →
  (rest = "" ∨ ∃ c r, rest = String c r ∧ netloc_delim c = true) →
  take_netloc (host +:+ rest) = host.
Proof.
  intros Hh Hr. induction host as [|c host IH]; simpl.
  - destruct Hr as [->|(c & r & -> & Hc)]; [done|]. simpl.
    unfold netloc_delim in Hc. by rewrite Hc.
  - simpl in Hh. apply andb_true_iff in Hh as [Hc Hh]. unfold netloc_delim in Hc.
    apply negb_true_iff in Hc. rewrite Hc. by rewrite IH.
Qed.

Lemma all_chars_impl (p q : Ascii.ascii -> bool) (s : string) :
  (∀ c, p c = true → q c = true) → all_chars p s = true → all_chars q s = true.
Proof.
  intros Hpq. induction s as [|c s IH]; simpl; [done|].
  rewrite !andb_true_iff. intros [Hc Hs]. split; [by apply Hpq|by apply IH].
Qed.

(** X6. The host the crawls classify is the text between ["://"] and the
    first ['/'], ['?'] or ['#'] when the URL has a scheme made of scheme
    characters and starting with a letter, and a host of printable ASCII
    characters without brackets. *)
Theorem X6_urlparse_netloc (c0 : Ascii.ascii) (sch host rest : string)
    (Hc0 : is_alpha c0 = true)
    (Hsch : all_chars scheme_char (String c0 sch) = true)
    (Hhost : all_chars host_char host = true)
    (Hrest : rest = "" ∨ ∃ c r, rest = String c r ∧ netloc_delim c = true) :
  urlparse_netloc (String c0 sch +:+ "://" +:+ host +:+ rest) = host.
Proof.
  unfold urlparse_netloc, strip_scheme.
  change ("://" +:+ host +:+ rest) with (":" +:+ ("//" +:+ host +:+ rest)).
  rewrite split_colon_scheme by done. rewrite Hc0, Hsch. simpl.
  rewrite substring_0_long by lia. cbn [String.append].
  assert (Hp : ∀ x, String.prefix "" x = true) by (intros []; done).
  rewrite Hp. change (String.append EmptyString ?x) with x. apply take_netloc_app; [|done].
  revert Hhost. apply all_chars_impl. unfold host_char. intros c Hc.
  repeat (apply andb_true_iff in Hc as [Hc ?]). done.
Qed.

Lemma X6_witness :
  urlparse_netloc "https://pmc.ncbi.nlm.nih.gov/articles/PMC9/" = "pmc.ncbi.nlm.nih.gov".
Proof.
  apply (X6_urlparse_netloc "h"%char "ttps" "pmc.ncbi.nlm.nih.gov" "/articles/PMC9/");
    [reflexivity | reflexivity | reflexivity |].
  right. exists "/"%char, "articles/PMC9/". split; reflexivity.
Defined.

(** ** Frontier without repeats *)

Lemma dedupe_go_fresh (seen : gset string) (l : list string) (x : string) :
  x ∈ dedupe_go seen l → x ∉ seen.
Proof.
  revert seen. induction l as [|u us IH]; intros seen; simpl; [set_solver|].
  destruct (decide (u ∈ seen)); [apply IH|].
  rewrite elem_of_cons. intros [->|Hx]; [done|]. apply IH in Hx. set_solver.
Qed.

Lemma enqueue_new_NoDup (vis : gset string) (q cands : list string) :
  NoDup q → NoDup (enqueue_new vis q cands).
Proof.
  intros Hq. rewrite enqueue_new_dedupe. apply NoDup_app. split; [done|].
  split; [|apply dedupe_go_NoDup].
  intros x Hx Hx'. apply dedupe_go_fresh in Hx'. apply Hx'.
  apply elem_of_union_r. by apply elem_of_list_to_set.
Qed.

Lemma try_download_queue (w : Web) (url : string) (s : FigState) :
  ∃ vis cands, url_queue (try_download_from_url w url s).2 = enqueue_new vis (url_queue s) cands.
Proof.
  unfold try_download_from_url.
  destruct (fetch_html w url) as [[fu html] ct].
  destruct html as [h|]; [destruct (truthy (Some h))|]; simpl;
    [|by exists ∅, []..].
  destruct (download_images _ _ _). simpl.
  destruct (contains _ _); [by eexists _, _|by exists ∅, []].
Qed.

Lemma fig_step_queue (w : Web) (s : FigState) :
  ∃ vis cands, url_queue (step_state (fig_step w s)) = enqueue_new vis (url_queue s) cands.
Proof.
  unfold fig_step. destruct (_ && _); [|by exists ∅, []].
  destruct (url_queue s !! idx s) as [url|]; [|by exists ∅, []].
  destruct (decide _); [by exists ∅, []|].
  destruct (try_download_queue w url
    (mkFigState (url_queue s) (S (idx s)) (visited s) (tried_meta s)
       (downloaded_all s) (fig_writes s))) as (vis & cands & H).
  destruct (try_download_from_url w url _) as [new s2]. simpl in *. eauto.
Qed.

Lemma text_step_queue (w : Web) (s : TextState) :
  ∃ vis cands, t_queue (step_state (text_step w s)) = enqueue_new vis (t_queue s) cands.
Proof.
  unfold text_step. destruct (_ && _); [|by exists ∅, []].
  destruct (t_queue s !! t_idx s) as [url|]; [|by exists ∅, []].
  destruct (decide _); [by exists ∅, []|].
  destruct (fetch_html_fulltext w url) as [[fu html] ct].
  destruct html as [h|]; simpl; [|by exists ∅, []].
  repeat match goal with
         | |- context [if ?b then _ else _] =>
             lazymatch b with
             | context [bool_decide _] => fail
             | _ => destruct b
             end
         | |- context [match ?o with Some _ => _ | None => _ end] => destruct o
         end; simpl;
  first [ by exists ∅, [] | by eexists _, _ | by eexists _, [_] ].
Qed.

Lemma fig_loop_NoDup (w : Web) (fuel : nat) (s : FigState) :
  NoDup (url_queue s) → NoDup (url_queue (fig_loop w fuel s)).
Proof.
  revert s. induction fuel as [|n IH]; intros s Hs; simpl; [done|].
  destruct (fig_step_queue w s) as (vis & cands & Hq).
  destruct (fig_step w s); simpl in *; [apply IH|]; rewrite Hq; by apply enqueue_new_NoDup.
Qed.

Lemma text_loop_NoDup (w : Web) (fuel : nat) (s : TextState) :
  NoDup (t_queue s) → NoDup (t_queue (text_loop w fuel s)).
Proof.
  revert s. induction fuel as [|n IH]; intros s Hs; simpl; [done|].
  destruct (text_step_queue w s) as (vis & cands & Hq).
  destruct (text_step w s); simpl in *; [apply IH|]; rewrite Hq; by apply enqueue_new_NoDup.
Qed.

Lemma NoDup_take_prefix (l : list string) (n : nat) : NoDup l → NoDup (take n l).
Proof.
  intros Hl. rewrite <- (take_drop n l) in Hl. by apply NoDup_app in Hl as [? _].
Qed.

(** X7. Both crawls started by [main]: the frontier never holds a URL twice,
    and the trace lists exactly the consumed frontier entries, in order, so
    the [if url in visited: continue] branch is never taken. *)
Theorem X7_frontier_nodup_trace_prefix (w : Web) (fuel : nat) (doi pmcid : option string) :
  let s := fig_loop w fuel (fig_init doi pmcid) in
  let t := text_loop w fuel (text_init doi pmcid) in
  NoDup (url_queue s) ∧ map ft_url (tried_meta s) = take (idx s) (url_queue s) ∧
  NoDup (t_queue t) ∧ map tt_url (tried t) = take (t_idx t) (t_queue t).
Proof.
  simpl.
  assert (Hs := fig_loop_NoDup w fuel (fig_init doi pmcid) (dedupe_NoDup _)).
  assert (Ht := text_loop_NoDup w fuel (text_init doi pmcid) (dedupe_NoDup _)).
  destruct (fig_loop_inv w (fig_initial_queue doi pmcid) fuel _
              (fig_inv_init _)) as (_ & _ & Htr & _).
  destruct (text_loop_inv w (candidate_urls_for_entry doi pmcid) fuel _
              (text_inv_init _)) as (_ & _ & Htr' & _).
  unfold fig_init, text_init in *.
  split; [done|]. split; [rewrite Htr; by apply dedupe_nodup_id, NoDup_take_prefix|].
  split; [done|]. rewrite Htr'; by apply dedupe_nodup_id, NoDup_take_prefix.
Qed.

(** X8. A crawl of [main] that has finished without a result has attempted
    every URL of its final frontier, each once, in frontier order. *)
Theorem X8_failed_crawl_tried_everything (w : Web) (fuel : nat) (doi pmcid : option string) :
  let s := fig_loop w fuel (fig_init doi pmcid) in
  let t := text_loop w fuel (text_init doi pmcid) in
  (fig_step w s = Exit s → downloaded_all s = [] → map ft_url (tried_meta s) = url_queue s) ∧
  (text_step w t = Exit t → full_html t = None → map tt_url (tried t) = t_queue t).
Proof.
  simpl.
  assert (Hs := fig_loop_NoDup w fuel (fig_init doi pmcid) (dedupe_NoDup _)).
  assert (Ht := text_loop_NoDup w fuel (text_init doi pmcid) (dedupe_NoDup _)).
  destruct (fig_loop_inv w (fig_initial_queue doi pmcid) fuel _
              (fig_inv_init _)) as (_ & Hle & Htr & _).
  destruct (text_loop_inv w (candidate_urls_for_entry doi pmcid) fuel _
              (text_inv_init _)) as (_ & Hle' & Htr' & _).
  unfold fig_init, text_init in *. split.
  - set (s := fig_loop _ _ _) in *. intros Hex Hd.
    rewrite Htr, dedupe_nodup_id by by apply NoDup_take_prefix.
    destruct (decide (idx s < length (url_queue s))%nat) as [Hlt|Hge];
      [|apply take_ge; lia].
    exfalso. unfold fig_step in Hex. rewrite Hd in Hex.
    apply Nat.ltb_lt in Hlt. rewrite Hlt in Hex. simpl in Hex.
    apply Nat.ltb_lt, lookup_lt_is_Some in Hlt as [url Hl]. rewrite Hl in Hex.
    destruct (decide _); [discriminate|].
    destruct (try_download_from_url w url _). discriminate.
  - set (t := text_loop _ _ _) in *. intros Hex Hd.
    rewrite Htr', dedupe_nodup_id by by apply NoDup_take_prefix.
    destruct (decide (t_idx t < length (t_queue t))%nat) as [Hlt|Hge];
      [|apply take_ge; lia].
    exfalso.
    unfold text_step in Hex. rewrite Hd in Hex.
    apply Nat.ltb_lt in Hlt. rewrite Hlt in Hex. simpl in Hex.
    apply Nat.ltb_lt, lookup_lt_is_Some in Hlt as [url Hl]. rewrite Hl in Hex.
    destruct (decide _); [discriminate|].
    destruct (fetch_html_fulltext w url) as [[fu html] ct].
    destruct html as [h|]; [|discriminate].
    repeat match type of Hex with
           | context [if ?b then _ else _] => destruct b
           | context [match ?o with Some _ => _ | None => _ end] => destruct o
           end; try discriminate;
    injection Hex as Hex; rewrite <- Hex in Hd; discriminate.
Qed.

(** ** Files written by the figure crawl *)

Lemma pretty_N_go_digits (x : N) (s : string) :
  all_chars is_digit s = true → all_chars is_digit (pretty_N_go x s) = true.
Proof.
  revert s. induction (N.lt_wf_0 x) as [x _ IH]; intros s Hs.
  destruct (decide (x = 0)%N) as [->|Hx]; [by rewrite pretty_N_go_0|].
  rewrite pretty_N_go_step by lia. apply IH; [apply N.div_lt; lia|].
  simpl. rewrite Hs, andb_true_r.
  assert (Hm : (x `mod` 10 < 10)%N) by (apply N.mod_lt; lia).
  generalize dependent (x `mod` 10)%N. intros m Hm.
  assert (m = 0 ∨ m = 1 ∨ m = 2 ∨ m = 3 ∨ m = 4 ∨ m = 5 ∨ m = 6 ∨ m = 7
          ∨ m = 8 ∨ m = 9)%N as Hcases by lia.
  by repeat destruct Hcases as [->|Hcases]; [..|subst m].
Qed.

Lemma pretty_nat_digits (n : nat) : all_chars is_digit (pretty n) = true.
Proof.
  change (pretty n) with (pretty (N.of_nat n)). unfold pretty, pretty_N.
  destruct (decide _); [done|]. by apply pretty_N_go_digits.
Qed.

Lemma digits_app_inj (a b r1 r2 : string) (c1 c2 : Ascii.ascii) :
  all_chars is_digit a = true → all_chars is_digit b = true →
  is_digit c1 = false → is_digit c2 = false →
  a +:+ String c1 r1 = b +:+ String c2 r2 → a = b.
Proof.
  revert b. induction a as [|x a IH]; intros b Ha Hb H1 H2 He; destruct b as [|y b]; simpl in *.
  - done.
  - injection He as -> _. apply andb_true_iff in Hb as [Hb _]. congruence.
  - injection He as <- _. apply andb_true_iff in Ha as [Ha _]. congruence.
  - apply andb_true_iff in Ha as [_ Ha]. apply andb_true_iff in Hb as [_ Hb].
    injection He as -> He. f_equal. by eapply IH.
Qed.

Lemma infer_ext_dot (u : string) : ∃ r, infer_ext u = String "." r.
Proof.
  unfold infer_ext. destruct (List.find _ _) as [c|] eqn:E; [|exists "png"; done].
  apply find_some in E as [Hin _]. simpl in Hin.
  repeat destruct Hin as [<-|Hin]; first [eexists; reflexivity | done].
Qed.

Lemma figure_name_inj (i j : nat) (u v : string) :
  "figure_" +:+ pretty i +:+ infer_ext u = "figure_" +:+ pretty j +:+ infer_ext v → i = j.
Proof.
  intros He. simpl in He. repeat (injection He as He).
  destruct (infer_ext_dot u) as [r1 Hr1], (infer_ext_dot v) as [r2 Hr2].
  rewrite Hr1, Hr2 in He.
  apply (inj pretty).
  apply (digits_app_inj (pretty i) (pretty j) r1 r2 "." ".");
    [apply pretty_nat_digits | apply pretty_nat_digits | reflexivity | reflexivity | exact He].
Qed.

Lemma download_images_files (w : Web) (i : nat) (urls : list string) :
  let '(dls, ws) := download_images w i urls in
  Forall2 (saved_as w) dls ws ∧
  Forall (λ d, ∃ j, (i ≤ j)%nat ∧
                  dl_file d = "figure_" +:+ pretty j +:+ infer_ext (dl_url d)) dls ∧
  NoDup (map dl_file dls).
Proof.
  revert i. induction urls as [|u us IH]; intros i; simpl; [by repeat constructor|].
  specialize (IH (S i)). destruct (download_images w (S i) us) as [dls ws].
  destruct IH as (HF & Hn & HN).
  destruct (http_get w u) as [e|r] eqn:Hg.
  - split; [done|]. split; [|done]. eapply Forall_impl; [done|].
    intros d (j & ? & ?). exists j. split; [lia|done].
  - destruct (negb (Z.eqb (status_code r) 200) || String.eqb (resp_content r) "") eqn:Hb.
    + split; [done|]. split; [|done]. eapply Forall_impl; [done|].
      intros d (j & ? & ?). exists j. split; [lia|done].
    + apply orb_false_iff in Hb as [H1 H2]. apply negb_false_iff, Z.eqb_eq in H1.
      split; [|split].
      * constructor; [|done]. split; [done|]. exists r. simpl. rewrite Hg.
        split; [done|]. split; [done|]. split; [|done].
        intros He. rewrite He in H2. done.
      * constructor; [by exists i|]. eapply Forall_impl; [done|].
        intros d (j & ? & ?). exists j. split; [lia|done].
      * simpl. constructor; [|done]. intros Hin.
        apply list_elem_of_fmap in Hin as (d & Hd & Hin).
        eapply Forall_forall in Hn as (j & Hj & Hv); [|done].
        simpl in Hd. rewrite Hv in Hd. apply figure_name_inj in Hd. lia.
Qed.

Lemma try_download_files (w : Web) (url : string) (s : FigState) :
  let '(new, s2) := try_download_from_url w url s in
  ∃ ws, fig_writes s2 = fig_writes s ++ ws ∧ Forall2 (saved_as w) new ws ∧
        NoDup (map dl_file new).
Proof.
  unfold try_download_from_url.
  destruct (fetch_html w url) as [[fu html] ct].
  destruct html as [h|]; [destruct (truthy (Some h))|];
    [|exists []; rewrite app_nil_r; by repeat constructor..].
  pose proof (download_images_files w 1 (extract_img_urls_from_html w (default "" fu) h))
    as Hf.
  destruct (download_images w 1 _) as [dls ws]. destruct Hf as (HF & _ & HN).
  by exists ws.
Qed.

Lemma fig_step_files (w : Web) (s : FigState) :
  fig_files_ok w s → fig_files_ok w (step_state (fig_step w s)).
Proof.
  intros Hok. pose proof Hok as [HF HN]. unfold fig_step.
  destruct (downloaded_all s) as [|d ds] eqn:Hd; [|by rewrite andb_false_r].
  apply Forall2_nil_inv_l in HF.
  destruct (_ && _); [|done].
  destruct (url_queue s !! idx s) as [url|]; [|done].
  destruct (decide _).
  { split; simpl; [rewrite HF|]; constructor. }
  lazymatch goal with |- context [try_download_from_url w url ?s1] =>
    pose proof (try_download_files w url s1) as Hf;
    pose proof (try_download_shape w url s1) as Hsh;
    destruct (try_download_from_url w url s1) as [new s2]
  end.
  destruct Hf as (ws & Hw & HF' & HN'). destruct Hsh as (_ & _ & _ & _ & Hd2 & _).
  unfold fig_files_ok; simpl in *. rewrite Hd2, Hw, HF. done.
Qed.

Lemma fig_loop_files (w : Web) (fuel : nat) (s : FigState) :
  fig_files_ok w s → fig_files_ok w (fig_loop w fuel s).
Proof.
  revert s. induction fuel as [|n IH]; intros s Hs; simpl; [done|].
  pose proof (fig_step_files w s Hs) as Hs'.
  destruct (fig_step w s); simpl in *; [apply IH|]; done.
Qed.

(** X9. What [main] of [download_figures.py] writes: nothing (besides the
    [figs] directory) when no figure was found; otherwise each downloaded
    image, under distinct names in [figs/] with the body of a successful
    download of its URL, and then [meta.json] listing exactly these
    figures. *)
Theorem X9_main_figures_files (w : Web) (fuel : nat) (doi pmcid : option string) :
  let r := main_figures w fuel doi pmcid in
  made_dirs r = ["figs"] ∧
  (found r = false → written r = []) ∧
  (found r = true → ∃ dls ws q tr,
      dls ≠ [] ∧ Forall2 (saved_as w) dls ws ∧ NoDup (map dl_file dls) ∧
      written r = ws ++ [("meta.json", FigMeta doi pmcid dls q tr)]).
Proof.
  simpl. unfold main_figures.
  assert (Hok : fig_files_ok w (fig_loop w fuel (fig_init doi pmcid))).
  { apply fig_loop_files. split; simpl; constructor. }
  destruct Hok as [HF HN].
  destruct (downloaded_all (fig_loop w fuel (fig_init doi pmcid))) as [|d ds] eqn:Hd;
    simpl.
  - apply Forall2_nil_inv_l in HF. rewrite HF. repeat split; done.
  - split; [done|]. split; [done|]. intros _.
    eexists (d :: ds), _, _, _. repeat split; [done|done|done].
Qed.

(** ** Files written by the full-text crawl *)

Lemma text_step_result (w : Web) (s : TextState) :
  full_html s = None ∨ text_result w s →
  full_html (step_state (text_step w s)) = None ∨ text_result w (step_state (text_step w s)).
Proof.
  intros [Hn|Hr].
  - unfold text_step. rewrite Hn. simpl.
    destruct (_ <? _)%nat; simpl; [|by left].
    destruct (t_queue s !! t_idx s) as [url|]; [|by left].
    destruct (decide _); [by left|].
    destruct (fetch_html_fulltext w url) as [[fu html] ct] eqn:Hf.
    destruct html as [h|]; [|by left].
    destruct (truthy (Some h)) eqn:Ht; simpl; [|by left].
    rewrite fetch_html_fulltext_same in Hf.
    destruct (fetch_html_cases w url) as [Hc|(r & _ & _ & Hct & Hc)];
      rewrite Hf in Hc; [discriminate|].
    injection Hc as -> -> ->.
    fold (host_of (Some (resp_url r)) url).
    destruct (contains "pubmed.ncbi.nlm.nih.gov" _ && _).
    { left. simpl. by repeat case_match. }
    destruct (contains "pubmed.ncbi.nlm.nih.gov" _) eqn:Hpub; [by left|].
    destruct (_ || _) eqn:Hpmc; [|by left].
    right. simpl. eexists url, _, _, _, (tried s).
    split; [rewrite fetch_html_fulltext_same, Hf; reflexivity|].
    split; [unfold truthy in Ht; intros He; rewrite He in Ht; discriminate|].
    split; [done|]. split; [done|]. split; [|done].
    f_equal. f_equal. unfold py_or, truthy.
    destruct (String.eqb _ "") eqn:E; [|done].
    apply String.eqb_eq in E. rewrite E in Hct. discriminate Hct.
  - right. pose proof Hr as (url & fu & h & ct & tr0 & _ & Hh & _ & _ & _ & Hfh & _).
    unfold text_step. rewrite Hfh, truthy_Some by done. rewrite andb_false_r. done.
Qed.

Lemma text_loop_result (w : Web) (fuel : nat) (s : TextState) :
  full_html s = None ∨ text_result w s →
  full_html (text_loop w fuel s) = None ∨ text_result w (text_loop w fuel s).
Proof.
  revert s. induction fuel as [|n IH]; intros s Hs; simpl; [done|].
  pose proof (text_step_result w s Hs) as Hs'.
  destruct (text_step w s); simpl in *; [apply IH|]; done.
Qed.

(** X10. What [main] of [download_fulltext.py] writes: nothing when no
    full text was found; otherwise [full.html], holding the non-empty
    HTML page fetched from the last attempted URL, whose host is not
    PubMed but PMC or learnmem, [full.txt] with its extracted text, and
    [meta.json] whose [used_url] is that fetch's final URL and whose trace
    ends with that attempt. *)
Theorem X10_main_fulltext_files (w : Web) (fuel : nat) (doi pmcid : option string) :
  let r := main_fulltext w fuel doi pmcid in
  made_dirs r = ["."] ∧
  (found r = false → written r = []) ∧
  (found r = true → ∃ url fu h ct q tr0,
      fetch_html_fulltext w url = (Some fu, Some h, Some ct) ∧ h ≠ "" ∧
      contains "pubmed.ncbi.nlm.nih.gov" (host_of (Some fu) url) = false ∧
      (contains "pmc.ncbi.nlm.nih.gov" (host_of (Some fu) url)
       || contains "learnmem.cshlp.org" (host_of (Some fu) url)) = true ∧
      written r = [("full.html", Text h);
                   ("full.txt", Text (extract_main_text_from_html w h));
                   ("meta.json", TextMeta doi pmcid (Some fu) q
                                   (tr0 ++ [mkTextTrace url (Some fu) ct]))]).
Proof.
  simpl. unfold main_fulltext.
  destruct (text_loop_result w fuel (text_init doi pmcid) (or_introl eq_refl))
    as [Hn|(url & fu & h & ct & tr0 & Hf & Hh & Hpub & Hpmc & Htr & Hfh & Hfu)].
  - rewrite Hn. simpl. repeat split; done.
  - rewrite Hfh, truthy_Some by done. simpl. split; [done|]. split; [done|].
    intros _. exists url, fu, h, ct, (t_queue (text_loop w fuel (text_init doi pmcid))), tr0.
    rewrite Hfu, Htr. done.
Qed.

(** ** Runs on the sample webs *)

Lemma X8_witness :
  let s := fig_loop Sample.web1 5 (fig_init (Some "10.1/b") None) in
  map ft_url (tried_meta s) = url_queue s.
Proof.
  destruct (X8_failed_crawl_tried_everything Sample.web1 5 (Some "10.1/b") None) as [H _].
  apply H; vm_compute; reflexivity.
Defined.

Lemma X9_witness :
  ∃ dls ws q tr, dls ≠ [] ∧ Forall2 (saved_as Sample.web1) dls ws ∧ NoDup (map dl_file dls) ∧
    written (main_figures Sample.web1 5 None (Some "PMC9")) =
      ws ++ [("meta.json", FigMeta None (Some "PMC9") dls q tr)].
Proof.
  destruct (X9_main_figures_files Sample.web1 5 None (Some "PMC9")) as (_ & _ & H).
  apply H. vm_compute. reflexivity.
Defined.

Lemma X10_witness :
  ∃ url fu h ct q tr0,
    fetch_html_fulltext Sample2.web2 url = (Some fu, Some h, Some ct) ∧ h ≠ "" ∧
    written (main_fulltext Sample2.web2 5 None (Some "PMC7")) =
      [("full.html", Text h);
       ("full.txt", Text (extract_main_text_from_html Sample2.web2 h));
       ("meta.json", TextMeta None (Some "PMC7") (Some fu) q
                       (tr0 ++ [mkTextTrace url (Some fu) ct]))].
Proof.
  destruct (X10_main_fulltext_files Sample2.web2 5 None (Some "PMC7")) as (_ & _ & H).
  destruct (H ltac:(vm_compute; reflexivity))
    as (url & fu & h & ct & q & tr0 & Hf & Hh & _ & _ & Hw).
  exists url, fu, h, ct, q, tr0. split; [exact Hf|]. split; [exact Hh|exact Hw].
Defined.

(** ** The remaining page handlers and the command line *)

(** X11. Full-text crawl: a non-empty HTML page on a PubMed host that is
    not a search page appends its PMC links (those neither visited, queued,
    nor repeated) after the frontier, takes no content, and the loop goes
    on with the next entry. *)
Theorem X11_fulltext_pubmed_article_page (w : Web) (t : TextState) (url fu h ct : string)
    (Hfh : truthy (full_html t) = false) (Hl : t_queue t !! t_idx t = Some url)
    (Hv : url ∉ t_visited t)
    (Hf : fetch_html_fulltext w url = (Some fu, Some h, Some ct)) (Hh : h ≠ "")
    (Hpub : contains "pubmed.ncbi.nlm.nih.gov" (host_of (Some fu) url) = true)
    (Hterm : contains "/?term=" (py_or (Some fu) url) = false) :
  ∃ t', text_step w t = Continue t' ∧
        t_queue t' = t_queue t ++
          dedupe_go ({[url]} ∪ t_visited t ∪ list_to_set (t_queue t))
                    (find_pmc_links_in_pubmed w fu h) ∧
        t_idx t' = S (t_idx t) ∧ full_html t' = full_html t.
Proof.
  unfold text_step. rewrite Hl, Hfh.
  pose proof (lookup_lt_Some _ _ _ Hl) as Hlt. apply Nat.ltb_lt in Hlt. rewrite Hlt.
  simpl. rewrite decide_False by done. rewrite Hf, truthy_Some by done. simpl.
  fold (host_of (Some fu) url). rewrite Hpub, Hterm. simpl.
  eexists. split; [reflexivity|]. simpl. by rewrite enqueue_new_dedupe.
Qed.

Lemma X11_witness :
  ∃ t', text_step Sample.web1 (mkTextState [Sample.A] 0 ∅ [] None None) = Continue t' ∧
        t_queue t' = [Sample.A; Sample.D].
Proof.
  destruct (X11_fulltext_pubmed_article_page Sample.web1
              (mkTextState [Sample.A] 0 ∅ [] None None) Sample.A Sample.A "pageA"
              "text/html; charset=utf-8" eq_refl eq_refl ltac:(set_solver)
              ltac:(vm_compute; reflexivity) ltac:(discriminate)
              ltac:(vm_compute; reflexivity) ltac:(vm_compute; reflexivity))
    as (t' & Hs & Hq & _ & _).
  exists t'. split; [exact Hs|]. rewrite Hq. vm_compute. reflexivity.
Defined.

Lemma elem_of_map_iff {A B} (f : A → B) (l : list A) (x : B) :
  x ∈ map f l ↔ ∃ y, x = f y ∧ y ∈ l.
Proof.
  rewrite list_elem_of_In, in_map_iff. split.
  - intros (y & <- & Hy). exists y. by rewrite list_elem_of_In.
  - intros (y & -> & Hy). exists y. by rewrite <- list_elem_of_In.
Qed.

Lemma elem_of_srcs_of (w : Web) (base : string) (imgs : list Img) (x : string) :
  x ∈ srcs_of w base imgs ↔
  ∃ img src, img ∈ imgs ∧ img_source img = Some src ∧ x = urljoin w base src.
Proof.
  unfold srcs_of. rewrite list_elem_of_omap. split.
  - intros (img & Hin & Hs). apply fmap_Some in Hs as (src & Hs & ->). eauto.
  - intros (img & src & Hin & Hs & ->). exists img. split; [done|]. by rewrite Hs.
Qed.

(** X13. The image URLs taken from a page are duplicate-free; those found
    inside [<figure>] tags come first, in document order; and a URL is
    taken exactly when it is [urljoin(base_url, src)] for the [data-src]
    (or else [src]) of an [<img>] inside a [<figure>], inside an element
    matching one of the five container selectors, or whose [alt] or
    [title] mentions "fig". *)
Theorem X13_extract_img_urls_spec (w : Web) (base html : string) :
  let soup := parse_html w html in
  let urls := extract_img_urls_from_html w base html in
  NoDup urls ∧
  dedupe (mjoin (map (srcs_of w base) (soup_figures soup))) `prefix_of` urls ∧
  (∀ x, x ∈ urls ↔
     ∃ img src, img_source img = Some src ∧ x = urljoin w base src ∧
       ((∃ fig, fig ∈ soup_figures soup ∧ img ∈ fig) ∨
        (∃ sel cont, sel ∈ figure_selectors ∧ cont ∈ soup_select soup sel ∧ img ∈ cont) ∨
        (img ∈ soup_imgs soup ∧ mentions_fig img = true))).
Proof.
  simpl. unfold extract_img_urls_from_html. split; [apply dedupe_NoDup|]. split.
  { unfold dedupe at 2. rewrite dedupe_go_app. eexists. reflexivity. }
  intros x. rewrite dedupe_elem, !elem_of_app, !list_elem_of_join. split.
  - intros [(l & Hx & Hl) | [(l & Hx & Hl) | Hx]].
    + apply elem_of_map_iff in Hl as (fig & -> & Hfig).
      apply elem_of_srcs_of in Hx as (img & src & Hin & Hs & ->).
      exists img, src. split; [done|]. split; [done|]. left. eauto.
    + apply elem_of_map_iff in Hl as (sel & -> & Hsel).
      apply list_elem_of_join in Hx as (l & Hx & Hl).
      apply elem_of_map_iff in Hl as (cont & -> & Hcont).
      apply elem_of_srcs_of in Hx as (img & src & Hin & Hs & ->).
      exists img, src. split; [done|]. split; [done|]. right; left. eauto.
    + apply elem_of_srcs_of in Hx as (img & src & Hin & Hs & ->).
      apply list_elem_of_filter in Hin as [Hm Hin].
      exists img, src. split; [done|]. split; [done|]. right; right. done.
  - intros (img & src & Hs & -> & [(fig & Hfig & Hin) | [(sel & cont & Hsel & Hcont & Hin) | [Hin Hm]]]).
    + left. exists (srcs_of w base fig). split.
      * apply elem_of_srcs_of. eauto.
      * apply elem_of_map_iff. eauto.
    + right; left. exists (mjoin (map (srcs_of w base) (soup_select (parse_html w html) sel))).
      split.
      * apply list_elem_of_join. exists (srcs_of w base cont). split.
        -- apply elem_of_srcs_of. eauto.
        -- apply elem_of_map_iff. eauto.
      * apply elem_of_map_iff. eauto.
    + right; right. apply elem_of_srcs_of. exists img, src. split; [|done].
      by apply list_elem_of_filter.
Qed.

(** ** Normalising the PMC identifier *)

Lemma remove_PMC_not_P (c : Ascii.ascii) (s : string) :
  c ≠ "P"%char → remove_PMC (String c s) = String c (remove_PMC s).
Proof. intros Hc. destruct c as [[] [] [] [] [] [] [] []]; done. Qed.

Lemma remove_PMC_not_M (c : Ascii.ascii) (s : string) :
  c ≠ "M"%char → remove_PMC (String "P" (String c s)) = String "P" (remove_PMC (String c s)).
Proof. intros Hc. destruct c as [[] [] [] [] [] [] [] []]; done. Qed.

Lemma remove_PMC_not_C (c : Ascii.ascii) (s : string) :
  c ≠ "C"%char →
  remove_PMC (String "P" (String "M" (String c s)))
  = String "P" (remove_PMC (String "M" (String c s))).
Proof. intros Hc. destruct c as [[] [] [] [] [] [] [] []]; done. Qed.

Lemma remove_PMC_space (p : string) :
  remove_PMC (p +:+ " ") = remove_PMC p +:+ " ".
Proof.
  induction p as [p IH] using (induction_ltof1 _ String.length); unfold ltof in IH.
  destruct p as [|c s]; [reflexivity|].
  destruct (Ascii.ascii_dec c "P") as [->|Hc].
  - destruct s as [|c2 s2]; [reflexivity|].
    destruct (Ascii.ascii_dec c2 "M") as [->|Hc2].
    + destruct s2 as [|c3 s3]; [reflexivity|].
      destruct (Ascii.ascii_dec c3 "C") as [->|Hc3].
      * simpl. apply IH. simpl. lia.
      * change (String "P" (String "M" (String c3 s3)) +:+ " ")
          with (String "P" (String "M" (String c3 (s3 +:+ " ")))).
        rewrite !remove_PMC_not_C by done.
        change (String "P" ?x +:+ " ") with (String "P" (x +:+ " ")). f_equal.
        apply (IH (String "M" (String c3 s3))). simpl. lia.
    + change (String "P" (String c2 s2) +:+ " ") with (String "P" (String c2 (s2 +:+ " "))).
      rewrite !remove_PMC_not_M by done.
      change (String "P" ?x +:+ " ") with (String "P" (x +:+ " ")). f_equal.
      apply (IH (String c2 s2)). simpl. lia.
  - change (String c s +:+ " ") with (String c (s +:+ " ")).
    rewrite !remove_PMC_not_P by done.
    change (String c ?x +:+ " ") with (String c (x +:+ " ")). f_equal. apply IH. simpl. lia.
Qed.

Lemma rstrip_space (s : string) : rstrip (s +:+ " ") = rstrip s.
Proof. induction s as [|c s IH]; simpl; [done|]. by rewrite IH. Qed.

(** X14. The PMC URL does not depend on a leading [PMC] in the recorded
    identifier, nor on surrounding spaces. *)
Theorem X14_pmc_url_normalisation (p : string) :
  pmc_url ("PMC" +:+ p) = pmc_url p ∧
  pmc_url (" " +:+ p) = pmc_url p ∧
  pmc_url (p +:+ " ") = pmc_url p.
Proof.
  unfold pmc_url, strip. split; [done|]. split; [done|].
  rewrite remove_PMC_space. f_equal. f_equal.
  induction (remove_PMC p) as [|c s IH]; [done|].
  change (String c s +:+ " ") with (String c (s +:+ " ")). simpl.
  destruct (is_space c); [done|]. apply (rstrip_space (String c s)).
Qed.

Lemma X14_witness :
  pmc_url ("PMC123" +:+ " ") = pmc_url "123".
Proof.
  destruct (X14_pmc_url_normalisation "123") as (H1 & _ & _).
  destruct (X14_pmc_url_normalisation "PMC123") as (_ & _ & H3).
  etransitivity; [exact H3 | exact H1].
Defined.

(** ** Where the figure frontier grows *)

(** X15. An attempt of the figure crawl changes the frontier only when the
    URL yields a non-empty HTML page whose host contains
    [pubmed.ncbi.nlm.nih.gov]. *)
Theorem X15_fig_frontier_grows_only_from_pubmed (w : Web) (url : string) (s : FigState)
    (Hch : url_queue (try_download_from_url w url s).2 ≠ url_queue s) :
  ∃ fu h ct, fetch_html w url = (Some fu, Some h, Some ct) ∧ h ≠ "" ∧
    contains "pubmed.ncbi.nlm.nih.gov" (host_of (Some fu) url) = true.
Proof.
  revert Hch. unfold try_download_from_url.
  destruct (fetch_html_cases w url) as [Hn|(r & _ & _ & _ & Hf)].
  { rewrite Hn. simpl. done. }
  rewrite Hf. cbv zeta.
  destruct (truthy (Some (resp_text r))) eqn:Ht; [|simpl; done].
  destruct (download_images _ _ _). simpl.
  fold (host_of (Some (resp_url r)) url).
  destruct (contains _ (host_of _ _)) eqn:Hp; [|done].
  intros _. exists (resp_url r), (resp_text r), (lower (default "" (content_type r))).
  split; [done|]. split; [|done].
  intros He. rewrite He in Ht. discriminate.
Qed.

Lemma X15_witness :
  ∃ fu h ct, fetch_html Sample.web1 Sample.A = (Some fu, Some h, Some ct) ∧ h ≠ "" ∧
    contains "pubmed.ncbi.nlm.nih.gov" (host_of (Some fu) Sample.A) = true.
Proof.
  apply (X15_fig_frontier_grows_only_from_pubmed Sample.web1 Sample.A Sample.start1).
  vm_compute. discriminate.
Defined.
